(** * Verification of the trading-journal report script [pnl_gui.py]

    A shallow embedding of [TradingJournal] (its [load_data],
    [display_trades] and [display_summary] methods) together with the
    parts of Python, pandas and the console the methods rely on:

    - Python strings, [str.strip], [str.replace], [str.lower],
      [os.path.splitext] and the builtin [float] (binary64, IEEE 754);
    - pandas data frames, column by column, with their element types,
      the [.str] accessor, [astype(float)] and [Series.sum];
    - exceptions and [try]/[except], in an error monad that threads the
      console output.

    What the libraries do with the outside world (reading a file, turning
    a text into a timestamp, printing a binary64, the order in which a
    column is summed) is taken as a parameter. *)

From Stdlib Require Import ZArith List String Ascii Bool Lia.
From Stdlib Require Import Floats.SpecFloat.
From Stdlib Require Import Numbers.DecimalString.
Import ListNotations.

Local Open Scope string_scope.
Local Open Scope Z_scope.

(** ** Python strings

    A text is a [string], a sequence of bytes; the white space and the
    digits recognised are those of ASCII. *)

Module PyStr.

(** The characters [str.strip()] removes and [float()] ignores at both
    ends: TAB, LF, VT, FF, CR, FS, GS, RS, US and the space. *)
Definition is_space (c : ascii) : bool :=
  let n := N_of_ascii c in
  ((9 <=? n) && (n <=? 13) || (28 <=? n) && (n <=? 32))%N.

Definition is_digit (c : ascii) : bool :=
  let n := N_of_ascii c in ((48 <=? n) && (n <=? 57))%N.

Definition digit_value (c : ascii) : Z := Z.of_N (N_of_ascii c) - 48.

(** [s.lstrip()] *)
Fixpoint lstrip (s : string) : string :=
  match s with
  | String c s' => if is_space c then lstrip s' else s
  | EmptyString => EmptyString
  end.

(** [s.rstrip()] *)
Fixpoint rstrip (s : string) : string :=
  match s with
  | String c s' =>
      match rstrip s' with
      | EmptyString => if is_space c then EmptyString else String c EmptyString
      | r => String c r
      end
  | EmptyString => EmptyString
  end.

(** [s.strip()] *)
Definition strip (s : string) : string := rstrip (lstrip s).

(** [s.replace(c, '')] for a pattern [c] of one character. *)
Fixpoint remove_char (c : ascii) (s : string) : string :=
  match s with
  | String a s' =>
      if Ascii.eqb a c then remove_char c s' else String a (remove_char c s')
  | EmptyString => EmptyString
  end.

Definition lower_char (c : ascii) : ascii :=
  let n := N_of_ascii c in
  if ((65 <=? n) && (n <=? 90))%N then ascii_of_N (n + 32) else c.

(** [s.lower()] *)
Fixpoint lower (s : string) : string :=
  match s with
  | String c s' => String (lower_char c) (lower s')
  | EmptyString => EmptyString
  end.

(** [str(n)] for an integer. *)
Definition of_Z (z : Z) : string := NilZero.string_of_int (Z.to_int z).

(** A number written with at least [width] digits, as [%02d] does. *)
Definition zero_pad (width : nat) (z : Z) : string :=
  let s := of_Z z in
  let fix zeros (n : nat) : string :=
    match n with O => EmptyString | S n' => String "0" (zeros n') end in
  zeros (width - String.length s)%nat ++ s.

End PyStr.

(** ** [os.path.splitext] (POSIX flavour) *)

Module OsPath.

(** [p.rfind(c)]: the last position of [c], counted from 0. *)
Fixpoint rfind (c : ascii) (p : string) : option nat :=
  match p with
  | EmptyString => None
  | String a p' =>
      match rfind c p' with
      | Some i => Some (S i)
      | None => if Ascii.eqb a c then Some O else None
      end
  end.

(** Is some character of [p] at a position in [[lo, hi)] different from
    the dot?  The loop "skip all leading dots" of [genericpath._splitext]. *)
Fixpoint has_non_dot (p : string) (lo hi : nat) : bool :=
  match p, hi with
  | EmptyString, _ => false
  | _, O => false
  | String a p', S hi' =>
      match lo with
      | O => if Ascii.eqb a "." then has_non_dot p' O hi' else true
      | S lo' => has_non_dot p' lo' hi'
      end
  end.

Fixpoint drop (n : nat) (p : string) : string :=
  match n, p with
  | O, _ => p
  | S n', String _ p' => drop n' p'
  | S _, EmptyString => EmptyString
  end.

Fixpoint take (n : nat) (p : string) : string :=
  match n, p with
  | O, _ => EmptyString
  | S n', String a p' => String a (take n' p')
  | S _, EmptyString => EmptyString
  end.

(** [os.path.splitext(p)]: root and extension.  The extension starts at
    the last dot of the last path component, unless that component has
    only dots before it. *)
Definition splitext (p : string) : string * string :=
  let filename_index :=
    match rfind "/" p with Some i => S i | None => O end in
  match rfind "." p with
  | Some dot_index =>
      if (filename_index <=? dot_index)%nat
         && has_non_dot p filename_index dot_index
      then (take dot_index p, drop dot_index p)
      else (p, EmptyString)
  | None => (p, EmptyString)
  end.

(** [os.path.join(a, b)] for a relative [b]. *)
Definition join (a b : string) : string :=
  match a with
  | EmptyString => b
  | _ =>
      match rfind "/" a with
      | Some i => if (S i =? String.length a)%nat then a ++ b else a ++ "/" ++ b
      | None => a ++ "/" ++ b
      end
  end.

End OsPath.

(** ** binary64 *)

Module Float64.

Definition prec : Z := 53.
Definition emax : Z := 1024.

Definition float : Type := spec_float.

Definition nan : float := S754_nan.
Definition zero : float := S754_zero false.

Definition of_Z (z : Z) : float := binary_normalize prec emax z 0 false.

Definition add : float -> float -> float := SFadd prec emax.
Definition mul : float -> float -> float := SFmul prec emax.
Definition div : float -> float -> float := SFdiv prec emax.

(** [x < y], [x <= y]: false as soon as one side is NaN. *)
Definition ltb : float -> float -> bool := SFltb.
Definition leb : float -> float -> bool := SFleb.

Definition is_nan (x : float) : bool :=
  match x with S754_nan => true | _ => false end.

(** The binary64 nearest to [(-1)^neg * m * 10^e] (ties to even): what a
    correctly rounded decimal-to-binary conversion returns. *)
Definition of_decimal (neg : bool) (m : Z) (e : Z) : float :=
  match m with
  | Zpos p =>
      if 0 <=? e
      then binary_normalize prec emax
             (if neg then - (m * 10 ^ e) else m * 10 ^ e) 0 false
      else
        match 10 ^ (- e) with
        | Zpos q => div (S754_finite neg p 0) (S754_finite false q 0)
        | _ => nan
        end
  | _ => S754_zero neg
  end.

End Float64.

Abbreviation float := Float64.float.

(** ** The builtin [float] on a text *)

Module PyFloat.
Import PyStr.

(** The optional sign: [true] for a minus. *)
Definition split_sign (s : string) : bool * string :=
  match s with
  | String c r =>
      if Ascii.eqb c "-" then (true, r)
      else if Ascii.eqb c "+" then (false, r)
      else (false, s)
  | EmptyString => (false, s)
  end.

(** The longest prefix that is a group of digits, and what follows it.
    Single underscores may separate the digits; they are dropped. *)
Fixpoint span_digits (s : string) : string * string :=
  match s with
  | String c r =>
      if is_digit c then
        match r with
        | String u r' =>
            if Ascii.eqb u "_" then
              match r' with
              | String d _ =>
                  if is_digit d
                  then let (ds, rest) := span_digits r' in (String c ds, rest)
                  else (String c EmptyString, r)
              | EmptyString => (String c EmptyString, r)
              end
            else let (ds, rest) := span_digits r in (String c ds, rest)
        | EmptyString => (String c EmptyString, EmptyString)
        end
      else (EmptyString, s)
  | EmptyString => (EmptyString, EmptyString)
  end.

Fixpoint digits_value (acc : Z) (ds : string) : Z :=
  match ds with
  | String c r => digits_value (10 * acc + digit_value c) r
  | EmptyString => acc
  end.

(** [inf], [infinity] and [nan], in any case. *)
Definition parse_inf_or_nan (neg : bool) (s : string) : option float :=
  let l := lower s in
  if String.eqb l "inf" || String.eqb l "infinity"
  then Some (S754_infinity neg)
  else if String.eqb l "nan" then Some S754_nan
  else None.

(** The fraction: a point and the digits after it, if there is a point. *)
Definition span_fraction (s : string) : string * string :=
  match s with
  | String c r => if Ascii.eqb c "." then span_digits r else (EmptyString, s)
  | EmptyString => (EmptyString, s)
  end.

(** The exponent, 0 when there is none; nothing may follow it. *)
Definition parse_exponent (s : string) : option Z :=
  match s with
  | EmptyString => Some 0
  | String c r =>
      if Ascii.eqb c "e" || Ascii.eqb c "E"
      then
        let (eneg, r') := split_sign r in
        let (ed, rest) := span_digits r' in
        if String.eqb ed "" then None
        else if String.eqb rest "" then
          Some (if eneg then - digits_value 0 ed else digits_value 0 ed)
        else None
      else None
  end.

(** Digits, an optional point and more digits (one digit at least), an
    optional exponent.  The result is the integer part, the fraction
    part and the exponent. *)
Definition parse_number (s : string) : option (string * string * Z) :=
  let (ip, r1) := span_digits s in
  let (fp, r2) := span_fraction r1 in
  if String.eqb ip "" && String.eqb fp "" then None
  else
    match parse_exponent r2 with
    | Some e => Some (ip, fp, e)
    | None => None
    end.

(** [float(s)] for a text [s]; [None] stands for the [ValueError]
    "could not convert string to float". *)
Definition of_string (s : string) : option float :=
  let (neg, body) := split_sign (strip s) in
  match parse_number body with
  | Some (ip, fp, e) =>
      Some (Float64.of_decimal neg (digits_value 0 (ip ++ fp))
              (e - Z.of_nat (String.length fp)))
  | None => parse_inf_or_nan neg body
  end.

(** *** The syntax of the texts [float] accepts

    As the language reference gives it:
<<
    sign        ::= "+" | "-"
    digitpart   ::= digit (["_"] digit)*
    number      ::= [digitpart] "." digitpart | digitpart ["."]
    exponent    ::= ("e" | "E") [sign] digitpart
    floatnumber ::= number [exponent]
    floatvalue  ::= [sign] (floatnumber | infinity | nan)
>>
    with [infinity] one of "inf" and "infinity" and [nan] the word
    "nan", in any case, and white space allowed around the value. *)











End PyFloat.

(** ** Python values and exceptions *)

(** A [pandas.Timestamp], to the second. *)
Record timestamp : Type := Timestamp {
  year : Z; month : Z; day : Z;
  hour : Z; minute : Z; second : Z
}.

(** The objects a cell of a data frame holds. *)
Inductive pyval : Type :=
| VStr (s : string)
| VInt (z : Z)
| VFloat (f : float)
| VBool (b : bool)
| VTimestamp (t : timestamp)
| VNaT
| VNone.

(** The exceptions, by class.  Every one of them is an [Exception]. *)
Inductive exn : Type :=
| FileNotFoundError
| ValueError (msg : string)
| KeyError (key : string)
| AttributeError (msg : string)
| TypeError (msg : string)
| ZeroDivisionError
| OtherError (class msg : string).

(** A computation that returns or raises. *)
Definition result (A : Type) : Type := (exn + A)%type.

Definition rbind {A B : Type} (c : result A) (k : A -> result B) : result B :=
  match c with
  | inl e => inl e
  | inr a => k a
  end.

Notation "'let?' x ':=' c 'in' k" := (rbind c (fun x => k))
  (at level 10, x pattern, c at level 100, k at level 200).

(** All or nothing: the first exception is the outcome. *)
Fixpoint rmap {A B : Type} (f : A -> result B) (l : list A) : result (list B) :=
  match l with
  | [] => inr []
  | a :: l' =>
      let? b := f a in
      let? bs := rmap f l' in
      inr (b :: bs)
  end.

Module Py.
Import PyStr.

Definition could_not_convert : string := "could not convert string to float".

(** [float(s)] *)
Definition float_of_str (s : string) : result float :=
  match PyFloat.of_string s with
  | Some x => inr x
  | None => inl (ValueError could_not_convert)
  end.

Definition str_of_timestamp (t : timestamp) : string :=
  zero_pad 4 (year t) ++ "-" ++ zero_pad 2 (month t) ++ "-" ++ zero_pad 2 (day t)
  ++ " " ++ zero_pad 2 (hour t) ++ ":" ++ zero_pad 2 (minute t)
  ++ ":" ++ zero_pad 2 (second t).

Section Str.
(** [repr] of a finite binary64 (its shortest decimal form). *)
Variable float_repr : float -> string.

Definition str_of_float (f : float) : string :=
  match f with
  | S754_nan => "nan"
  | S754_infinity false => "inf"
  | S754_infinity true => "-inf"
  | _ => float_repr f
  end.

(** [str(v)] *)
Definition str (v : pyval) : string :=
  match v with
  | VStr s => s
  | VInt z => of_Z z
  | VFloat f => str_of_float f
  | VBool true => "True"
  | VBool false => "False"
  | VTimestamp t => str_of_timestamp t
  | VNaT => "NaT"
  | VNone => "None"
  end.
End Str.

(** [v.strftime('%Y-%m-%d')] *)
Definition strftime_ymd (v : pyval) : result string :=
  match v with
  | VTimestamp t =>
      inr (zero_pad 4 (year t) ++ "-" ++ zero_pad 2 (month t)
           ++ "-" ++ zero_pad 2 (day t))
  | VNaT => inl (ValueError "NaTType does not support strftime")
  | _ => inl (AttributeError "object has no attribute 'strftime'")
  end.

End Py.

(** ** pandas *)

Module Pd.

(** A column: its element type and its values. *)
Inductive Series : Type :=
| Int64Series (l : list Z)
| Float64Series (l : list float)
| BoolSeries (l : list bool)
| DatetimeSeries (l : list (option timestamp))
| ObjectSeries (l : list pyval).

Definition box_datetime (o : option timestamp) : pyval :=
  match o with
  | Some t => VTimestamp t
  | None => VNaT
  end.

(** The values of a column as Python objects. *)
Definition values (s : Series) : list pyval :=
  match s with
  | Int64Series l => map VInt l
  | Float64Series l => map VFloat l
  | BoolSeries l => map VBool l
  | DatetimeSeries l => map box_datetime l
  | ObjectSeries l => l
  end.

Definition size (s : Series) : nat := List.length (values s).

(** A data frame: the length of its index, and its columns by label, in
    the order of the file. *)
Record DataFrame : Type := {
  index_size : nat;
  columns : list (string * Series)
}.

(** [pd.DataFrame()] *)
Definition empty_frame : DataFrame := {| index_size := 0; columns := [] |}.

(** Every column is as long as the index. *)
Definition well_formed (df : DataFrame) : Prop :=
  Forall (fun c => size (snd c) = index_size df) (columns df).

(** [df.empty]: no row or no column. *)
Definition empty (df : DataFrame) : bool :=
  (index_size df =? 0)%nat || match columns df with [] => true | _ => false end.

(** [len(df)] *)
Definition len (df : DataFrame) : Z := Z.of_nat (index_size df).

Fixpoint lookup {A : Type} (key : string) (l : list (string * A)) : option A :=
  match l with
  | [] => None
  | (k, a) :: l' => if String.eqb k key then Some a else lookup key l'
  end.

(** [label in df.columns] *)
Definition has_column (df : DataFrame) (label : string) : bool :=
  match lookup label (columns df) with Some _ => true | None => false end.

(** [df[label]] *)
Definition getitem (df : DataFrame) (label : string) : result Series :=
  match lookup label (columns df) with
  | Some s => inr s
  | None => inl (KeyError label)
  end.

Fixpoint replace_column (label : string) (s : Series)
         (l : list (string * Series)) : list (string * Series) :=
  match l with
  | [] => [(label, s)]
  | (k, a) :: l' =>
      if String.eqb k label then (k, s) :: l'
      else (k, a) :: replace_column label s l'
  end.

(** [df[label] = s] *)
Definition setitem (df : DataFrame) (label : string) (s : Series) : DataFrame :=
  {| index_size := index_size df;
     columns := replace_column label s (columns df) |}.

(** A row as [iterrows] yields it: the cell of each column.  (When all
    columns are numeric pandas hands the integers over as floats; the
    text of such a cell still reads as the same number.) *)
Definition Row : Type := list (string * pyval).

Definition row_at (df : DataFrame) (i : nat) : Row :=
  map (fun c => (fst c, nth i (values (snd c)) (VFloat Float64.nan)))
      (columns df).

(** [df.iterrows()] *)
Definition iterrows (df : DataFrame) : list Row :=
  map (row_at df) (seq 0 (index_size df)).

(** [row[label]] *)
Definition row_getitem (r : Row) (label : string) : result pyval :=
  match lookup label r with
  | Some v => inr v
  | None => inl (KeyError label)
  end.

(** *** The [.str] accessor *)

(** Missing values: [None], [NaN] and [NaT]. *)
Definition isna (v : pyval) : bool :=
  match v with
  | VNone | VNaT => true
  | VFloat f => Float64.is_nan f
  | _ => false
  end.

Definition is_number (v : pyval) : bool :=
  match v with VInt _ | VFloat _ => true | _ => false end.
Definition is_bool (v : pyval) : bool :=
  match v with VBool _ => true | _ => false end.
Definition is_datetime (v : pyval) : bool :=
  match v with VTimestamp _ => true | _ => false end.

(** Does [lib.infer_dtype(values, skipna=True)] answer one of "string",
    "empty", "mixed" and "mixed-integer"?  It looks at the first value
    that is not missing, and answers "integer", "floating",
    "mixed-integer-float", "boolean" or "datetime" when all the values
    are of that sort. *)
Definition infers_text (l : list pyval) : bool :=
  let present := filter (fun v => negb (isna v)) l in
  match present with
  | [] => true
  | VStr _ :: _ => true
  | VInt _ :: _ | VFloat _ :: _ => negb (forallb is_number present)
  | VBool _ :: _ => negb (forallb is_bool present)
  | VTimestamp _ :: _ => negb (forallb is_datetime present)
  | (VNaT | VNone) :: _ => true
  end.

Definition str_accessor_error : exn :=
  AttributeError "Can only use .str accessor with string values!".

(** [s.str]: the values the accessor works on. *)
Definition str_accessor (s : Series) : result (list pyval) :=
  match s with
  | ObjectSeries l => if infers_text l then inr l else inl str_accessor_error
  | _ => inl str_accessor_error
  end.

(** [s.str.replace(c, '')], for a pattern of one character, over the
    values of the accessor: a text loses every [c], anything else
    becomes NaN. *)
Definition str_replace (c : ascii) (l : list pyval) : Series :=
  ObjectSeries
    (map (fun v => match v with
                   | VStr t => VStr (PyStr.remove_char c t)
                   | _ => VFloat Float64.nan
                   end) l).

(** *** [astype(float)] *)

Definition float_of_value (v : pyval) : result float :=
  match v with
  | VStr t => Py.float_of_str t
  | VInt z => inr (Float64.of_Z z)
  | VFloat f => inr f
  | VBool b => inr (Float64.of_Z (if b then 1 else 0))
  | VNone => inr Float64.nan
  | VNaT | VTimestamp _ =>
      inl (TypeError "float() argument must be a string or a real number")
  end.

Definition astype_float (s : Series) : result (list float) :=
  match s with
  | Float64Series l => inr l
  | DatetimeSeries _ => inl (TypeError "Cannot cast DatetimeArray to dtype float64")
  | _ => rmap float_of_value (values s)
  end.

(** [sum(values > 0)]: how many values are above zero. *)
Definition count_positive (l : list float) : Z :=
  Z.of_nat (List.length (filter (fun x => Float64.ltb Float64.zero x) l)).

Section Sum.
(** The sum of an array of binary64 as NumPy computes it (the order of
    the additions is NumPy's own). *)
Variable np_sum : list float -> float.

(** [s.sum()]: missing values count as zero ([skipna=True]). *)
Definition sum (l : list float) : float :=
  np_sum (map (fun x => if Float64.is_nan x then Float64.zero else x) l).
End Sum.

Definition not_a_datetime : exn :=
  ValueError "Unknown datetime string format, unable to parse".

Section ToDatetime.
(** The conversion of one value that is neither missing nor a timestamp
    already: a text through the date parser, a number as an offset
    from the epoch.  [None] when the value is no date. *)
Variable convert_datetime : pyval -> option timestamp.

Definition datetime_of_value (v : pyval) : result (option timestamp) :=
  if isna v then inr None
  else
    match v with
    | VTimestamp t => inr (Some t)
    | _ =>
        match convert_datetime v with
        | Some t => inr (Some t)
        | None => inl not_a_datetime
        end
    end.

(** [pd.to_datetime(s)], with [errors='raise']: one value that is no
    date and the call raises. *)
Definition to_datetime (s : Series) : result Series :=
  match s with
  | DatetimeSeries _ => inr s
  | _ =>
      let? l := rmap datetime_of_value (values s) in
      inr (DatetimeSeries l)
  end.
End ToDatetime.

(** The files, as the readers see them. *)
Record World : Type := {
  file_exists : string -> bool;
  (** what [read_csv] makes of the file at a path that exists *)
  csv_at : string -> result DataFrame;
  (** what [read_excel] makes of it *)
  excel_at : string -> result DataFrame
}.

(** [pd.read_csv(path, encoding='utf-8')] *)
Definition read_csv (w : World) (path : string) : result DataFrame :=
  if file_exists w path then csv_at w path else inl FileNotFoundError.

(** [pd.read_excel(path)] *)
Definition read_excel (w : World) (path : string) : result DataFrame :=
  if file_exists w path then excel_at w path else inl FileNotFoundError.

End Pd.

(** ** The console *)

(** The two styles of the theme a figure is printed in. *)
Inductive style : Type := profit | loss.

(** A row of the table, as [table.add_row] receives it. *)
Record table_row : Type := {
  cell_date : string;
  cell_session : string;
  cell_quantity : string;
  cell_risk_reward : string;
  cell_pnl_style : style;
  cell_pnl : string;
  cell_change : string;
  cell_comments : string
}.

(** What the program writes, one constructor for each [console.print] (and
    for the clearing of the screen). *)
Inductive event : Type :=
| PrintFileNotFound (path : string)
| PrintErrorLoadingFile (e : exn)
| PrintNoData
| PrintRowError (e : exn)
| ClearScreen
| PrintBanner
| PrintTable (rows : list table_row)
| PrintSummaryHeader
| PrintTotalTrades (n : Z)
| PrintProfitableTrades (n : Z)
| PrintLossMakingTrades (n : Z)
| PrintWinRate (st : style) (rate : float)
| PrintTotalPnl (st : style) (total : float)
| PrintStatsError (e : exn).

(** ** The journal *)

(** The object [self]: [data] is unset until [load_data] assigns it. *)
Record TradingJournal : Type := {
  file_path : string;
  data : option Pd.DataFrame
}.

(** A method: from the state of [self] to an outcome, the new state and
    what was printed meanwhile. *)
Definition M (A : Type) : Type :=
  TradingJournal -> result A * TradingJournal * list event.

Definition ret {A : Type} (a : A) : M A := fun j => (inr a, j, []).

Definition raise {A : Type} (e : exn) : M A := fun j => (inl e, j, []).

Definition bind {A B : Type} (c : M A) (k : A -> M B) : M B :=
  fun j =>
    match c j with
    | (inl e, j', out) => (inl e, j', out)
    | (inr a, j', out) =>
        let '(r, j'', out') := k a j' in (r, j'', (out ++ out')%list)
    end.

Notation "x <- c ;; k" := (bind c (fun x => k))
  (at level 61, c at next level, right associativity).
Notation "c ;; k" := (bind c (fun _ => k))
  (at level 61, right associativity).

(** [try: c  except Exception as e: handler e] *)
Definition try_except {A : Type} (c : M A) (handler : exn -> M A) : M A :=
  fun j =>
    match c j with
    | (inl e, j', out) =>
        let '(r, j'', out') := handler e j' in (r, j'', (out ++ out')%list)
    | (inr a, j', out) => (inr a, j', out)
    end.

Definition lift {A : Type} (c : result A) : M A :=
  fun j => (c, j, []).

(** [console.print(...)] *)
Definition print (ev : event) : M unit := fun j => (inr tt, j, [ev]).

Definition get_file_path : M string := fun j => (inr (file_path j), j, []).

(** Reading [self.data]. *)
Definition get_data : M Pd.DataFrame :=
  fun j =>
    match data j with
    | Some df => (inr df, j, [])
    | None =>
        (inl (AttributeError "'TradingJournal' object has no attribute 'data'"),
         j, [])
    end.

(** [self.data = df] *)
Definition set_data (df : Pd.DataFrame) : M unit :=
  fun j => (inr tt, {| file_path := file_path j; data := Some df |}, []).

(** A [for] loop whose body updates a local object. *)
Fixpoint for_each {A S : Type} (l : list A) (body : S -> A -> M S) (s : S) : M S :=
  match l with
  | [] => ret s
  | a :: l' => s' <- body s a ;; for_each l' body s'
  end.

Definition unsupported_format : string :=
  "Unsupported file format. Please use CSV or Excel files.".

Section Journal.

Variable world : Pd.World.
Variable convert_datetime : pyval -> option timestamp.
Variable float_repr : float -> string.
Variable np_sum : list float -> float.

(** [os.path.splitext(self.file_path)[1].lower()] *)
Definition file_extension (path : string) : string :=
  PyStr.lower (snd (OsPath.splitext path)).

(** Lines 30 to 35: the reader the extension selects. *)
Definition read_file (path file_extension : string) : M unit :=
  if String.eqb file_extension ".csv" then
    df <- lift (Pd.read_csv world path) ;;
    set_data df
  else if String.eqb file_extension ".xlsx"
          || String.eqb file_extension ".xls" then
    df <- lift (Pd.read_excel world path) ;;
    set_data df
  else
    raise (ValueError unsupported_format).

(** Lines 38 and 39: the [date] column becomes a column of timestamps. *)
Definition convert_dates : M unit :=
  df <- get_data ;;
  if Pd.has_column df "date" then
    col <- lift (Pd.getitem df "date") ;;
    dates <- lift (Pd.to_datetime convert_datetime col) ;;
    set_data (Pd.setitem df "date" dates)
  else ret tt.

(** Lines 41 to 46: the two [except] clauses, the first that matches. *)
Definition load_failed (path : string) (e : exn) : M unit :=
  match e with
  | FileNotFoundError =>
      print (PrintFileNotFound path) ;;
      set_data Pd.empty_frame
  | _ =>
      print (PrintErrorLoadingFile e) ;;
      set_data Pd.empty_frame
  end.

Definition load_data : M unit :=
  path <- get_file_path ;;
  let file_extension := file_extension path in
  try_except
    (read_file path file_extension ;;
     convert_dates)
    (load_failed path).

(** [TradingJournal(file_path)] *)
Definition init (path : string) : result unit * TradingJournal * list event :=
  load_data {| file_path := path; data := None |}.

(** Line 73: the text of a PnL cell. *)
Definition pnl_text (v : pyval) : string := PyStr.strip (Py.str float_repr v).

(** Line 74: the number the text stands for once the dollar signs and
    the commas are gone. *)
Definition pnl_value_of (pnl_str : string) : result float :=
  Py.float_of_str (PyStr.remove_char "," (PyStr.remove_char "$" pnl_str)).

(** Lines 73 and 74 together, on the content of a cell. *)
Definition parse_pnl (raw : pyval) : result float :=
  pnl_value_of (pnl_text raw).

(** [pnl_value >= 0] *)
Definition pnl_style_of (pnl_value : float) : style :=
  if Float64.leb Float64.zero pnl_value then profit else loss.

(** The body of the [try] of the loop over the rows, up to the call of
    [table.add_row]. *)
Definition render_row (row : Pd.Row) : result table_row :=
  let? pnl := Pd.row_getitem row "PnL" in
  let pnl_str := pnl_text pnl in
  let? pnl_value := pnl_value_of pnl_str in
  let pnl_style := pnl_style_of pnl_value in
  let? date := Pd.row_getitem row "date" in
  let? date_str := Py.strftime_ymd date in
  let? session := Pd.row_getitem row "trading session" in
  let? quantity := Pd.row_getitem row "quantity" in
  let? risk_reward := Pd.row_getitem row "risk:reward" in
  let? change := Pd.row_getitem row "percentage change" in
  let? comments := Pd.row_getitem row "comments" in
  inr {| cell_date := date_str;
         cell_session := Py.str float_repr session;
         cell_quantity := Py.str float_repr quantity;
         cell_risk_reward := Py.str float_repr risk_reward;
         cell_pnl_style := pnl_style;
         cell_pnl := pnl_str;
         cell_change := Py.str float_repr change ++ "%";
         cell_comments := Py.str float_repr comments |}.

(** [profitable_trades / total_trades] *)
Definition true_divide (a b : Z) : result float :=
  if b =? 0 then inl ZeroDivisionError
  else inr (Float64.div (Float64.of_Z a) (Float64.of_Z b)).

(** Line 107:
    [df['PnL'].str.replace('$', '').str.replace(',', '').astype(float)] *)
Definition pnl_values_of (df : Pd.DataFrame) : result (list float) :=
  let? col := Pd.getitem df "PnL" in
  let? texts := Pd.str_accessor col in
  let? texts' := Pd.str_accessor (Pd.str_replace "$" texts) in
  Pd.astype_float (Pd.str_replace "," texts').

Definition display_summary : M unit :=
  df <- get_data ;;
  if negb (Pd.empty df) then
    try_except
      (let total_trades := Pd.len df in
       pnl_values <- lift (pnl_values_of df) ;;
       let profitable_trades := Pd.count_positive pnl_values in
       print PrintSummaryHeader ;;
       print (PrintTotalTrades total_trades) ;;
       print (PrintProfitableTrades profitable_trades) ;;
       print (PrintLossMakingTrades (total_trades - profitable_trades)) ;;
       if 0 <? total_trades then
         ratio <- lift (true_divide profitable_trades total_trades) ;;
         let win_rate := Float64.mul ratio (Float64.of_Z 100) in
         print (PrintWinRate
                  (if Float64.leb (Float64.of_Z 50) win_rate then profit else loss)
                  win_rate) ;;
         let total_pnl := Pd.sum np_sum pnl_values in
         print (PrintTotalPnl
                  (if Float64.leb Float64.zero total_pnl then profit else loss)
                  total_pnl)
       else ret tt)
      (fun e => print (PrintStatsError e))
  else ret tt.

Definition display_trades : M unit :=
  df <- get_data ;;
  if Pd.empty df then
    print PrintNoData
  else
    table <- for_each (Pd.iterrows df)
               (fun table row =>
                  try_except
                    (cells <- lift (render_row row) ;;
                     ret (table ++ [cells])%list)
                    (fun e =>
                       print (PrintRowError e) ;;
                       ret table))
               [] ;;
    print ClearScreen ;;
    print PrintBanner ;;
    print (PrintTable table) ;;
    display_summary.

(** [main()], [script_dir] being the directory of the script. *)
Definition main (script_dir : string)
  : result unit * TradingJournal * list event :=
  let csv_path := OsPath.join script_dir "trading_journal.csv" in
  let '(r, journal, out) := init csv_path in
  match r with
  | inl e => (inl e, journal, out)
  | inr _ =>
      let '(r', journal', out') := display_trades journal in
      (r', journal', (out ++ out')%list)
  end.

End Journal.

(** ** Notions of the specification *)



(** The outcomes of a list of attempts: the values of those that returned,
    and the exceptions of those that raised, each in order. *)
Fixpoint successes {A : Type} (l : list (result A)) : list A :=
  match l with
  | [] => []
  | inr a :: l' => a :: successes l'
  | inl _ :: l' => successes l'
  end.

Fixpoint failures {A : Type} (l : list (result A)) : list exn :=
  match l with
  | [] => []
  | inr _ :: l' => failures l'
  | inl e :: l' => e :: failures l'
  end.

(** The kinds of error the specification names for a load. *)
Inductive error_kind : Type := FileNotFound | UnsupportedFormat | LoadError.

(** The kind a diagnostic of [load_data] reports.  The message of the
    exception tells an unsupported format from the failures of a reader. *)
Definition reported_kind (ev : event) : option error_kind :=
  match ev with
  | PrintFileNotFound _ => Some FileNotFound
  | PrintErrorLoadingFile (ValueError msg) =>
      if String.eqb msg unsupported_format then Some UnsupportedFormat
      else Some LoadError
  | PrintErrorLoadingFile _ => Some LoadError
  | _ => None
  end.

(** What the reader that the extension of [path] selects returns or
    raises; the [ValueError] of line 35 when the extension selects none. *)
Definition read_outcome (w : Pd.World) (path : string) : result Pd.DataFrame :=
  if String.eqb (file_extension path) ".csv" then Pd.read_csv w path
  else if String.eqb (file_extension path) ".xlsx"
          || String.eqb (file_extension path) ".xls"
       then Pd.read_excel w path
       else inl (ValueError unsupported_format).

(** The extensions [load_data] has a reader for. *)
Definition supported_extension (ext : string) : Prop :=
  ext = ".csv" \/ ext = ".xlsx" \/ ext = ".xls".

(** [x < 0] and [x >= 0] on binary64. *)
Definition negative (x : float) : Prop := Float64.ltb x Float64.zero = true.
Definition non_negative (x : float) : Prop := Float64.leb Float64.zero x = true.

(** What line 107 makes of one cell of a column of objects: a text loses
    its dollar signs and commas and goes through [float]; anything else
    counts as missing. *)
Definition pnl_of_cell (v : pyval) : result float :=
  match v with
  | VStr t => Py.float_of_str (PyStr.remove_char "," (PyStr.remove_char "$" t))
  | _ => inr Float64.nan
  end.

(** [(profitable_trades / total_trades) * 100] *)
Definition win_rate_of (profitable total : Z) : float :=
  Float64.mul (Float64.div (Float64.of_Z profitable) (Float64.of_Z total))
              (Float64.of_Z 100).

(** The events of the statistics, when they are printed in full. *)
Definition summary_report (total profitable : Z) (win_rate total_pnl : float)
  : list event :=
  [ PrintSummaryHeader;
    PrintTotalTrades total;
    PrintProfitableTrades profitable;
    PrintLossMakingTrades (total - profitable);
    PrintWinRate
      (if Float64.leb (Float64.of_Z 50) win_rate then profit else loss) win_rate;
    PrintTotalPnl
      (if Float64.leb Float64.zero total_pnl then profit else loss) total_pnl ].

(** ** A sample journal *)

Module Sample.

(** A date written [YYYY-MM-DD]. *)
Definition convert_datetime (v : pyval) : option timestamp :=
  match v with
  | VStr (String y1 (String y2 (String y3 (String y4 (String "-"
      (String m1 (String m2 (String "-" (String d1 (String d2 EmptyString)))))))))) =>
      Some {| year := PyFloat.digits_value 0
                        (String y1 (String y2 (String y3 (String y4 EmptyString))));
              month := PyFloat.digits_value 0 (String m1 (String m2 EmptyString));
              day := PyFloat.digits_value 0 (String d1 (String d2 EmptyString));
              hour := 0; minute := 0; second := 0 |}
  | _ => None
  end.

Definition float_repr (f : float) : string := "<float>".

(** Summing from the left. *)
Definition np_sum (l : list float) : float :=
  fold_left Float64.add l Float64.zero.

Definition frame (dates pnl : Pd.Series) (comments : list pyval) : Pd.DataFrame :=
  {| Pd.index_size := 3;
     Pd.columns :=
       [ ("date", dates);
         ("trading session", Pd.ObjectSeries [VStr "London"; VStr "New York"; VStr "Asia"]);
         ("quantity", Pd.Int64Series [1; 2; 3]);
         ("risk:reward", Pd.ObjectSeries [VStr "1:2"; VStr "1:3"; VStr "1:1"]);
         ("PnL", pnl);
         ("percentage change", Pd.Float64Series
            [Float64.of_Z 1; Float64.of_Z (-2); Float64.of_Z 0]);
         ("comments", Pd.ObjectSeries comments) ] |}.

Definition dates_text : Pd.Series :=
  Pd.ObjectSeries [VStr "2024-01-01"; VStr "2024-01-02"; VStr "2024-01-03"].

Definition comments : list pyval := [VStr "breakout"; VFloat Float64.nan; VStr "late"].

(** The scenario of the specification: a gain, a loss and a flat trade. *)
Definition csv_scenario : Pd.DataFrame :=
  frame dates_text (Pd.ObjectSeries [VStr "$100"; VStr "-$50"; VStr "$0"]) comments.

(** One PnL cell is no number. *)
Definition csv_bad_pnl : Pd.DataFrame :=
  frame dates_text (Pd.ObjectSeries [VStr "$100"; VStr "abc"; VStr "$0"]) comments.

(** One PnL cell is blank: the reader leaves NaN there. *)
Definition csv_blank_pnl : Pd.DataFrame :=
  frame dates_text
    (Pd.ObjectSeries [VStr "$100"; VFloat Float64.nan; VStr "-$50"]) comments.

(** Plain numbers in the PnL column: the reader makes it an integer column. *)
Definition csv_plain_pnl : Pd.DataFrame :=
  frame dates_text (Pd.Int64Series [100; -50; 0]) comments.

(** One date is no date. *)
Definition csv_bad_date : Pd.DataFrame :=
  frame (Pd.ObjectSeries [VStr "2024-01-01"; VStr "yesterday"; VStr "2024-01-03"])
    (Pd.ObjectSeries [VStr "$100"; VStr "-$50"; VStr "$0"]) comments.

Definition file_of (path : string) : option Pd.DataFrame :=
  if String.eqb path "trading_journal.csv" then Some csv_scenario
  else if String.eqb path "bad_pnl.csv" then Some csv_bad_pnl
  else if String.eqb path "blank_pnl.csv" then Some csv_blank_pnl
  else if String.eqb path "plain_pnl.csv" then Some csv_plain_pnl
  else if String.eqb path "bad_date.CSV" then Some csv_bad_date
  else if String.eqb path "notes.txt" then Some csv_scenario
  else None.

Definition world : Pd.World :=
  {| Pd.file_exists := fun path =>
       match file_of path with Some _ => true | None => false end;
     Pd.csv_at := fun path =>
       match file_of path with
       | Some df => inr df
       | None => inl (OtherError "EmptyDataError" "No columns to parse from file")
       end;
     Pd.excel_at := fun _ =>
       inl (OtherError "BadZipFile" "File is not a zip file") |}.

(** The journal once [TradingJournal(path)] has returned. *)
Definition journal (path : string) : TradingJournal :=
  snd (fst (init world convert_datetime path)).

(** The second row of the file with a blank PnL cell, once loaded. *)
Definition blank_row : Pd.Row :=
  match data (journal "blank_pnl.csv") with
  | Some df => Pd.row_at df 1
  | None => []
  end.

End Sample.

(** ** Further files *)

Module Cases.

Definition day_of (d : Z) : timestamp :=
  {| year := 2024; month := 3; day := d; hour := 9; minute := 30; second := 0 |}.

(** A sheet whose dates are dates already, one of them missing. *)
Definition sheet : Pd.DataFrame :=
  {| Pd.index_size := 3;
     Pd.columns :=
       [ ("date", Pd.DatetimeSeries [Some (day_of 4); None; Some (day_of 6)]);
         ("trading session", Pd.ObjectSeries [VStr "London"; VStr "Asia"; VStr "Asia"]);
         ("quantity", Pd.Int64Series [5; 1; 2]);
         ("risk:reward", Pd.ObjectSeries [VStr "1:2"; VStr "1:1"; VStr "1:4"]);
         ("PnL", Pd.ObjectSeries [VStr "$1,250.00"; VStr "-$40"; VStr " $10 "]);
         ("percentage change", Pd.Int64Series [3; -1; 0]);
         ("comments", Pd.ObjectSeries [VStr "open"; VNone; VStr "close"]) ] |}.

(** The same without its PnL column. *)
Definition no_pnl : Pd.DataFrame :=
  {| Pd.index_size := 3;
     Pd.columns :=
       [ ("date", Pd.DatetimeSeries [Some (day_of 4); None; Some (day_of 6)]);
         ("trading session", Pd.ObjectSeries [VStr "London"; VStr "Asia"; VStr "Asia"]);
         ("quantity", Pd.Int64Series [5; 1; 2]);
         ("risk:reward", Pd.ObjectSeries [VStr "1:2"; VStr "1:1"; VStr "1:4"]);
         ("percentage change", Pd.Int64Series [3; -1; 0]);
         ("comments", Pd.ObjectSeries [VStr "open"; VNone; VStr "close"]) ] |}.

(** A file without a column of dates. *)
Definition no_date : Pd.DataFrame :=
  {| Pd.index_size := 2;
     Pd.columns :=
       [ ("trading session", Pd.ObjectSeries [VStr "London"; VStr "Asia"]);
         ("quantity", Pd.Int64Series [5; 1]);
         ("risk:reward", Pd.ObjectSeries [VStr "1:2"; VStr "1:1"]);
         ("PnL", Pd.ObjectSeries [VStr "$12"; VStr "-$7"]);
         ("percentage change", Pd.Int64Series [3; -1]);
         ("comments", Pd.ObjectSeries [VStr "open"; VStr "close"]) ] |}.

(** A file with its header and no row. *)
Definition header_only : Pd.DataFrame :=
  {| Pd.index_size := 0;
     Pd.columns :=
       [ ("date", Pd.ObjectSeries []);
         ("PnL", Pd.ObjectSeries []);
         ("comments", Pd.ObjectSeries []) ] |}.

Definition world : Pd.World :=
  {| Pd.file_exists := fun path => negb (String.eqb path "gone.csv");
     Pd.csv_at := fun path =>
       if String.eqb path "no_pnl.csv" then inr no_pnl
       else if String.eqb path "no_date.csv" then inr no_date
       else if String.eqb path "header_only.csv" then inr header_only
       else if String.eqb path "scripts/trading_journal.csv" then inr Sample.csv_scenario
       else inl (OtherError "ParserError" "Error tokenizing data");
     Pd.excel_at := fun path =>
       if String.eqb path "book.xlsx" then inr sheet
       else inl (OtherError "BadZipFile" "File is not a zip file") |}.

Definition journal (path : string) : TradingJournal :=
  snd (fst (init world Sample.convert_datetime path)).

End Cases.

(** * Facts about texts *)

Section StripFacts.
Import PyStr.

Lemma rstrip_cons (c : ascii) (s : string) :
  rstrip (String c s)
  = if is_space c && String.eqb (rstrip s) "" then EmptyString
    else String c (rstrip s).
Proof.
  simpl. destruct (rstrip s); destruct (is_space c); reflexivity.
Qed.

Lemma rstrip_empty_iff (s : string) :
  rstrip s = EmptyString <-> lstrip s = EmptyString.
Proof.
  induction s as [|c s IH]; [tauto|].
  rewrite rstrip_cons. simpl lstrip.
  destruct (is_space c); simpl.
  - destruct (String.eqb_spec (rstrip s) "") as [E|E].
    + tauto.
    + split; [discriminate | intros H; elim E; tauto].
  - split; discriminate.
Qed.

Lemma lstrip_rstrip (s : string) : lstrip (rstrip s) = rstrip (lstrip s).
Proof.
  induction s as [|c s IH]; [reflexivity|].
  rewrite rstrip_cons. cbn [lstrip].
  destruct (is_space c) eqn:Hc; cbn [andb].
  - destruct (String.eqb_spec (rstrip s) "") as [E|E].
    + apply rstrip_empty_iff in E. rewrite E. reflexivity.
    + cbn [lstrip]. rewrite Hc. exact IH.
  - cbn [lstrip]. rewrite Hc. rewrite rstrip_cons, Hc. reflexivity.
Qed.

Lemma lstrip_idem (s : string) : lstrip (lstrip s) = lstrip s.
Proof.
  induction s as [|c s IH]; [reflexivity|].
  simpl. destruct (is_space c) eqn:Hc; [exact IH|].
  simpl. rewrite Hc. reflexivity.
Qed.

Lemma rstrip_idem (s : string) : rstrip (rstrip s) = rstrip s.
Proof.
  induction s as [|c s IH]; [reflexivity|].
  rewrite rstrip_cons.
  destruct (is_space c && String.eqb (rstrip s) "") eqn:E; [reflexivity|].
  rewrite rstrip_cons, IH, E. reflexivity.
Qed.

Lemma strip_idem (s : string) : strip (strip s) = strip s.
Proof.
  unfold strip.
  rewrite lstrip_rstrip, lstrip_idem, rstrip_idem. reflexivity.
Qed.

Lemma space_is_not (a c : ascii) :
  is_space a = true -> is_space c = false -> Ascii.eqb a c = false.
Proof.
  intros Ha Hc. destruct (Ascii.eqb_spec a c) as [E|E]; [|reflexivity].
  subst. congruence.
Qed.

Variable c : ascii.
Hypothesis c_visible : is_space c = false.

Lemma lstrip_remove_lstrip (s : string) :
  lstrip (remove_char c (lstrip s)) = lstrip (remove_char c s).
Proof.
  induction s as [|a s IH]; [reflexivity|].
  simpl lstrip at 2. destruct (is_space a) eqn:Ha; [|reflexivity].
  simpl remove_char. rewrite (space_is_not a c Ha c_visible).
  simpl. rewrite Ha. exact IH.
Qed.

Lemma rstrip_remove_rstrip (s : string) :
  rstrip (remove_char c (rstrip s)) = rstrip (remove_char c s).
Proof.
  induction s as [|a s IH]; [reflexivity|].
  rewrite rstrip_cons.
  destruct (is_space a) eqn:Ha; simpl andb.
  - simpl remove_char at 2. rewrite (space_is_not a c Ha c_visible).
    rewrite rstrip_cons, Ha. simpl andb.
    destruct (String.eqb_spec (rstrip s) "") as [E|E].
    + rewrite <- IH, E. reflexivity.
    + simpl remove_char. rewrite (space_is_not a c Ha c_visible).
      rewrite rstrip_cons, Ha, IH. reflexivity.
  - simpl remove_char. destruct (Ascii.eqb a c); [exact IH|].
    rewrite !rstrip_cons, Ha, IH. reflexivity.
Qed.

Lemma strip_remove_strip (s : string) :
  strip (remove_char c (strip s)) = strip (remove_char c s).
Proof.
  unfold strip.
  rewrite <- (lstrip_rstrip (remove_char c _)).
  rewrite rstrip_remove_rstrip.
  rewrite lstrip_rstrip, lstrip_remove_lstrip. reflexivity.
Qed.

End StripFacts.

Lemma strip_without_currency (s : string) :
  PyStr.strip (PyStr.remove_char "," (PyStr.remove_char "$" (PyStr.strip s)))
  = PyStr.strip (PyStr.remove_char "," (PyStr.remove_char "$" s)).
Proof.
  rewrite <- (strip_remove_strip "," eq_refl (PyStr.remove_char "$" (PyStr.strip s))).
  rewrite (strip_remove_strip "$" eq_refl s).
  apply (strip_remove_strip "," eq_refl).
Qed.


Lemma of_string_strip (s : string) :
  PyFloat.of_string (PyStr.strip s) = PyFloat.of_string s.
Proof. unfold PyFloat.of_string. rewrite strip_idem. reflexivity. Qed.

Lemma of_string_strip_eq (s t : string) :
  PyStr.strip s = PyStr.strip t -> PyFloat.of_string s = PyFloat.of_string t.
Proof. unfold PyFloat.of_string. intros ->. reflexivity. Qed.

(** * The syntax [float] reads *)

Section FloatSyntax.
Import PyStr PyFloat.

























End FloatSyntax.


(** * Facts about all-or-nothing maps *)

Section RmapFacts.
Context {A B : Type} (f : A -> result B).

Lemma rmap_returns (l : list A) (bs : list B) :
  rmap f l = inr bs <-> Forall2 (fun a b => f a = inr b) l bs.
Proof.
  revert bs. induction l as [|a l IH]; intros bs; simpl.
  - split.
    + intros H. injection H as <-. constructor.
    + intros H. inversion H. reflexivity.
  - destruct (f a) as [e|b] eqn:Fa; simpl.
    + split; [discriminate|]. intros H. inversion H. congruence.
    + destruct (rmap f l) as [e|bs'] eqn:R; simpl.
      * split; [discriminate|]. intros H. inversion H as [|? b' ? bs'' Hb Hl]; subst.
        apply IH in Hl. discriminate.
      * split.
        -- intros H. injection H as <-. constructor; [exact Fa|].
           apply IH. reflexivity.
        -- intros H. inversion H as [|? b' ? bs'' Hb Hl]; subst.
           apply IH in Hl. congruence.
Qed.

Lemma rmap_length (l : list A) (bs : list B) :
  rmap f l = inr bs -> List.length bs = List.length l.
Proof.
  intros H. apply rmap_returns in H.
  symmetry. eapply Forall2_length; eassumption.
Qed.

(** One element that raises, and the map raises. *)
Lemma rmap_raises (l : list A) (a : A) (e : exn) :
  In a l -> f a = inl e ->
  (forall a' e', In a' l -> f a' = inl e' -> e' = e) ->
  rmap f l = inl e.
Proof.
  induction l as [|a0 l IH]; intros Hin Ha Hall; [contradiction|].
  simpl. destruct (f a0) as [e0|b0] eqn:F0; simpl.
  - f_equal. apply (Hall a0); [left; reflexivity | exact F0].
  - destruct Hin as [->|Hin]; [congruence|].
    rewrite IH; [reflexivity | exact Hin | exact Ha |].
    intros a' e' Hin'. apply Hall. right. exact Hin'.
Qed.

(** Every element returns, or one of them raises. *)
Lemma rmap_total (l : list A) :
  (exists bs, rmap f l = inr bs) \/ (exists a e, In a l /\ f a = inl e).
Proof.
  induction l as [|a l IH]; simpl.
  - left. eexists. reflexivity.
  - destruct (f a) as [e|b] eqn:Fa.
    + right. exists a, e. auto.
    + destruct IH as [[bs R]|(a' & e & Hin & Fa')].
      * left. rewrite R. eexists. reflexivity.
      * right. exists a', e. auto.
Qed.
End RmapFacts.

(** * Loading *)

Section LoadFacts.
Variable world : Pd.World.
Variable convert_datetime : pyval -> option timestamp.

Lemma datetime_of_value_error (v : pyval) (e : exn) :
  Pd.datetime_of_value convert_datetime v = inl e -> e = Pd.not_a_datetime.
Proof.
  unfold Pd.datetime_of_value.
  destruct (Pd.isna v); [discriminate|].
  destruct v; try destruct (convert_datetime _); congruence.
Qed.

Lemma datetime_of_boxed (l : list (option timestamp)) :
  rmap (Pd.datetime_of_value convert_datetime) (map Pd.box_datetime l) = inr l.
Proof.
  induction l as [|[t|] l IH]; simpl; [reflexivity| |]; rewrite IH; reflexivity.
Qed.

Lemma to_datetime_values (s : Pd.Series) :
  Pd.to_datetime convert_datetime s
  = let? l := rmap (Pd.datetime_of_value convert_datetime) (Pd.values s) in
    inr (Pd.DatetimeSeries l).
Proof.
  destruct s; try reflexivity.
  simpl. rewrite datetime_of_boxed. reflexivity.
Qed.

Lemma file_extension_cases (path : string) :
  ~ supported_extension (file_extension path) ->
  String.eqb (file_extension path) ".csv" = false
  /\ String.eqb (file_extension path) ".xlsx" = false
  /\ String.eqb (file_extension path) ".xls" = false.
Proof.
  unfold supported_extension. intros H.
  repeat split; apply String.eqb_neq; tauto.
Qed.

Lemma load_failed_run (path : string) (e : exn) (j : TradingJournal) :
  load_failed path e j
  = (inr tt, {| file_path := file_path j; data := Some Pd.empty_frame |},
     [match e with
      | FileNotFoundError => PrintFileNotFound path
      | _ => PrintErrorLoadingFile e
      end]).
Proof. destruct e; reflexivity. Qed.

Lemma load_data_run (j : TradingJournal) :
  load_data world convert_datetime j
  = match (read_file world (file_path j) (file_extension (file_path j)) ;;
           convert_dates convert_datetime) j with
    | (inl e, j', out) =>
        (inr tt, {| file_path := file_path j'; data := Some Pd.empty_frame |},
         (out ++ [match e with
                  | FileNotFoundError => PrintFileNotFound (file_path j)
                  | _ => PrintErrorLoadingFile e
                  end])%list)
    | (inr a, j', out) => (inr a, j', out)
    end.
Proof.
  unfold load_data, get_file_path, try_except.
  unfold bind at 1. cbn [fst snd].
  destruct ((read_file _ _ _ ;; convert_dates _) j) as [[[e|a] j'] out].
  - rewrite load_failed_run. rewrite app_nil_l. reflexivity.
  - reflexivity.
Qed.

Lemma read_file_run (path ext : string) (j : TradingJournal) :
  read_file world path ext j
  = match (if String.eqb ext ".csv" then Pd.read_csv world path
           else if String.eqb ext ".xlsx" || String.eqb ext ".xls"
                then Pd.read_excel world path
                else inl (ValueError unsupported_format)) with
    | inl e => (inl e, j, [])
    | inr df => (inr tt, {| file_path := file_path j; data := Some df |}, [])
    end.
Proof.
  unfold read_file, bind, lift, set_data, raise.
  destruct (String.eqb ext ".csv").
  - destruct (Pd.read_csv world path); reflexivity.
  - destruct (String.eqb ext ".xlsx" || String.eqb ext ".xls").
    + destruct (Pd.read_excel world path); reflexivity.
    + reflexivity.
Qed.

Lemma convert_dates_run (path : string) (df : Pd.DataFrame) :
  convert_dates convert_datetime {| file_path := path; data := Some df |}
  = match Pd.lookup "date" (Pd.columns df) with
    | Some col =>
        match rmap (Pd.datetime_of_value convert_datetime) (Pd.values col) with
        | inr dates =>
            (inr tt,
             {| file_path := path;
                data := Some (Pd.setitem df "date" (Pd.DatetimeSeries dates)) |},
             [])
        | inl e => (inl e, {| file_path := path; data := Some df |}, [])
        end
    | None => (inr tt, {| file_path := path; data := Some df |}, [])
    end.
Proof.
  unfold convert_dates, bind, get_data, lift, set_data, ret,
    Pd.has_column, Pd.getitem.
  cbn. destruct (Pd.lookup "date" (Pd.columns df)) as [col|]; cbn; [|reflexivity].
  rewrite to_datetime_values.
  destruct (rmap _ (Pd.values col)); reflexivity.
Qed.

Lemma load_body_run (j : TradingJournal) :
  (read_file world (file_path j) (file_extension (file_path j)) ;;
   convert_dates convert_datetime) j
  = match (if String.eqb (file_extension (file_path j)) ".csv"
           then Pd.read_csv world (file_path j)
           else if String.eqb (file_extension (file_path j)) ".xlsx"
                   || String.eqb (file_extension (file_path j)) ".xls"
                then Pd.read_excel world (file_path j)
                else inl (ValueError unsupported_format)) with
    | inl e => (inl e, j, [])
    | inr df =>
        convert_dates convert_datetime
          {| file_path := file_path j; data := Some df |}
    end.
Proof.
  unfold bind at 1. rewrite read_file_run.
  destruct (if String.eqb _ ".csv" then _ else _) as [e|df]; [reflexivity|].
  destruct (convert_dates _ _) as [[r j'] out]. reflexivity.
Qed.

Lemma load_data_unsupported (j : TradingJournal) :
  ~ supported_extension (file_extension (file_path j)) ->
  load_data world convert_datetime j
  = (inr tt, {| file_path := file_path j; data := Some Pd.empty_frame |},
     [PrintErrorLoadingFile (ValueError unsupported_format)]).
Proof.
  intros H. apply file_extension_cases in H. destruct H as (H1 & H2 & H3).
  rewrite load_data_run, load_body_run, H1, H2, H3. reflexivity.
Qed.




End LoadFacts.

(** * The claims about loading *)




(** C7: for every path whose extension, in lower case, is none of [.csv],
    [.xlsx] and [.xls], whatever the files are, loading leaves an empty
    frame and prints one diagnostic, which carries the [ValueError] of the
    unsupported format: the kind reported is [UnsupportedFormat], not
    [LoadError] nor [FileNotFound]. *)
Theorem load_unsupported_format
    (w : Pd.World) (conv : pyval -> option timestamp) (path : string) :
  ~ supported_extension (file_extension path) ->
  init w conv path
  = (inr tt, {| file_path := path; data := Some Pd.empty_frame |},
     [PrintErrorLoadingFile (ValueError unsupported_format)])
  /\ map reported_kind (snd (init w conv path)) = [Some UnsupportedFormat].
Proof.
  intros H.
  assert (E : init w conv path
              = (inr tt, {| file_path := path; data := Some Pd.empty_frame |},
                 [PrintErrorLoadingFile (ValueError unsupported_format)])).
  { unfold init.
    apply (load_data_unsupported w conv {| file_path := path; data := None |}).
    exact H. }
  split; [exact E|]. rewrite E. reflexivity.
Qed.

Lemma load_unsupported_format_witness :
  init Sample.world Sample.convert_datetime "notes.txt"
  = (inr tt, {| file_path := "notes.txt"; data := Some Pd.empty_frame |},
     [PrintErrorLoadingFile (ValueError unsupported_format)])
  /\ map reported_kind
         (snd (init Sample.world Sample.convert_datetime "notes.txt"))
     = [Some UnsupportedFormat].
Proof.
  apply (load_unsupported_format Sample.world Sample.convert_datetime "notes.txt").
  unfold supported_extension. vm_compute.
  intros [H | [H | H]]; discriminate H.
Defined.



(** * Facts about the column of PnL *)

Lemma lookup_In {A : Type} (key : string) (l : list (string * A)) (a : A) :
  Pd.lookup key l = Some a -> In (key, a) l.
Proof.
  induction l as [|[k b] l IH]; simpl; [discriminate|].
  destruct (String.eqb_spec k key) as [->|_].
  - intros H. injection H as ->. left. reflexivity.
  - intros H. right. apply IH. exact H.
Qed.

Lemma lookup_map {A B : Type} (g : A -> B) (key : string) (l : list (string * A)) :
  Pd.lookup key (map (fun c => (fst c, g (snd c))) l)
  = option_map g (Pd.lookup key l).
Proof.
  induction l as [|[k b] l IH]; simpl; [reflexivity|].
  destruct (String.eqb k key); [reflexivity | exact IH].
Qed.

Lemma rmap_map {A B C : Type} (g : A -> B) (f : B -> result C) (l : list A) :
  rmap f (map g l) = rmap (fun a => f (g a)) l.
Proof.
  induction l as [|a l IH]; simpl; [reflexivity|]. rewrite IH. reflexivity.
Qed.

Lemma rmap_ext {A B : Type} (f g : A -> result B) (l : list A) :
  (forall a, In a l -> f a = g a) -> rmap f l = rmap g l.
Proof.
  induction l as [|a l IH]; intros H; simpl; [reflexivity|].
  rewrite (H a (or_introl eq_refl)), IH; [reflexivity|].
  intros a' Hin. apply H. right. exact Hin.
Qed.

(** A column that holds a text passes for a column of texts. *)
Lemma infers_text_with_str (l : list pyval) (t : string) :
  In (VStr t) l -> Pd.infers_text l = true.
Proof.
  intros Hin. unfold Pd.infers_text.
  assert (Hp : In (VStr t) (filter (fun v => negb (Pd.isna v)) l)).
  { apply filter_In. split; [exact Hin | reflexivity]. }
  destruct (filter (fun v => negb (Pd.isna v)) l) as [|v present] eqn:E;
    [contradiction|].
  assert (Hnum : forallb Pd.is_number (v :: present) = false).
  { apply not_true_is_false. intros H. rewrite forallb_forall in H.
    specialize (H _ Hp). discriminate H. }
  assert (Hbool : forallb Pd.is_bool (v :: present) = false).
  { apply not_true_is_false. intros H. rewrite forallb_forall in H.
    specialize (H _ Hp). discriminate H. }
  assert (Hdt : forallb Pd.is_datetime (v :: present) = false).
  { apply not_true_is_false. intros H. rewrite forallb_forall in H.
    specialize (H _ Hp). discriminate H. }
  destruct v; try reflexivity.
  - rewrite Hnum. reflexivity.
  - rewrite Hnum. reflexivity.
  - rewrite Hbool. reflexivity.
  - rewrite Hdt. reflexivity.
Qed.

(** After a replacement only texts and NaN are left. *)
Lemma infers_text_replaced (c : ascii) (l : list pyval) :
  Pd.infers_text
    (map (fun v => match v with
                   | VStr t => VStr (PyStr.remove_char c t)
                   | _ => VFloat Float64.nan
                   end) l) = true.
Proof.
  unfold Pd.infers_text.
  induction l as [|v l IH]; [reflexivity|].
  destruct v; simpl; try exact IH. reflexivity.
Qed.

Lemma str_accessor_replaced (c : ascii) (l : list pyval) :
  Pd.str_accessor (Pd.str_replace c l)
  = inr (map (fun v => match v with
                       | VStr t => VStr (PyStr.remove_char c t)
                       | _ => VFloat Float64.nan
                       end) l).
Proof.
  unfold Pd.str_replace, Pd.str_accessor.
  rewrite infers_text_replaced. reflexivity.
Qed.

(** Line 107 on a column of objects that passes for text: cell by cell. *)
Lemma pnl_values_of_object (df : Pd.DataFrame) (l : list pyval) :
  Pd.lookup "PnL" (Pd.columns df) = Some (Pd.ObjectSeries l) ->
  Pd.infers_text l = true ->
  pnl_values_of df = rmap pnl_of_cell l.
Proof.
  intros Hcol Ht.
  unfold pnl_values_of, Pd.getitem. rewrite Hcol. cbn [rbind].
  unfold Pd.str_accessor at 1. rewrite Ht. cbn [rbind].
  rewrite str_accessor_replaced. cbn [rbind].
  unfold Pd.str_replace, Pd.astype_float. cbn [Pd.values].
  rewrite !rmap_map. apply rmap_ext.
  intros v _. destruct v; reflexivity.
Qed.

(** Line 107 on any other column: the accessor refuses it. *)
Lemma pnl_values_of_other (df : Pd.DataFrame) (col : Pd.Series) :
  Pd.lookup "PnL" (Pd.columns df) = Some col ->
  match col with
  | Pd.ObjectSeries l => Pd.infers_text l = false
  | _ => True
  end ->
  pnl_values_of df = inl Pd.str_accessor_error.
Proof.
  intros Hcol Hk.
  unfold pnl_values_of, Pd.getitem. rewrite Hcol. cbn [rbind].
  destruct col; try reflexivity.
  unfold Pd.str_accessor. rewrite Hk. reflexivity.
Qed.


(** The errors of line 107, all of them. *)
Lemma pnl_values_of_error (df : Pd.DataFrame) (e : exn) :
  pnl_values_of df = inl e ->
  e = KeyError "PnL" \/ e = Pd.str_accessor_error
  \/ e = ValueError Py.could_not_convert.
Proof.
  unfold pnl_values_of, Pd.getitem.
  destruct (Pd.lookup "PnL" (Pd.columns df)) as [col|];
    cbn [rbind]; [|intros H; left; congruence].
  destruct (Pd.str_accessor col) as [e0|l] eqn:Ha; cbn [rbind].
  - intros H. right. left.
    destruct col; cbn in Ha; try congruence.
    destruct (Pd.infers_text l); congruence.
  - rewrite str_accessor_replaced. cbn [rbind].
    unfold Pd.str_replace, Pd.astype_float. cbn [Pd.values].
    rewrite !rmap_map. intros H. right. right.
    destruct (rmap_total
                (fun a => Pd.float_of_value
                   match match a with
                         | VStr t => VStr (PyStr.remove_char "$" t)
                         | _ => VFloat Float64.nan
                         end with
                   | VStr t => VStr (PyStr.remove_char "," t)
                   | _ => VFloat Float64.nan
                   end) l) as [[bs R]|(a & e' & Hin & Fa)]; [congruence|].
    assert (Hall : forall a' e2,
               Pd.float_of_value
                 match match a' with
                       | VStr t => VStr (PyStr.remove_char "$" t)
                       | _ => VFloat Float64.nan
                       end with
                 | VStr t => VStr (PyStr.remove_char "," t)
                 | _ => VFloat Float64.nan
                 end = inl e2 -> e2 = ValueError Py.could_not_convert).
    { intros a' e2. destruct a'; simpl; try discriminate.
      unfold Py.float_of_str. destruct (PyFloat.of_string _); congruence. }
    rewrite (rmap_raises _ l a (ValueError Py.could_not_convert)) in H.
    + congruence.
    + exact Hin.
    + rewrite Fa. f_equal. eapply Hall. exact Fa.
    + intros a' e2 _. apply Hall.
Qed.

(** The text of a cell reads the same for the rows and for the column. *)
Lemma parse_pnl_text (float_repr : float -> string) (t : string) :
  parse_pnl float_repr (VStr t) = pnl_of_cell (VStr t).
Proof.
  unfold parse_pnl, pnl_value_of, pnl_text, pnl_of_cell, Py.float_of_str.
  cbn [Py.str].
  rewrite (of_string_strip_eq _ _ (strip_without_currency t)). reflexivity.
Qed.

(** * Facts about the two displays *)

Lemma empty_false_len (df : Pd.DataFrame) :
  Pd.empty df = false -> (0 <? Pd.len df) = true /\ (Pd.len df =? 0) = false.
Proof.
  unfold Pd.empty, Pd.len. intros H.
  apply orb_false_elim in H. destruct H as [H _].
  apply Nat.eqb_neq in H. split; [apply Z.ltb_lt | apply Z.eqb_neq]; lia.
Qed.

Section DisplayFacts.
Variable float_repr : float -> string.
Variable np_sum : list float -> float.

Lemma display_summary_unset (j : TradingJournal) :
  data j = None ->
  display_summary np_sum j
  = (inl (AttributeError "'TradingJournal' object has no attribute 'data'"),
     j, []).
Proof.
  intros H. unfold display_summary, get_data. unfold bind at 1.
  rewrite H. reflexivity.
Qed.

Lemma display_summary_run (j : TradingJournal) (df : Pd.DataFrame) :
  data j = Some df ->
  display_summary np_sum j
  = (inr tt, j,
     if Pd.empty df then []
     else match pnl_values_of df with
          | inl e => [PrintStatsError e]
          | inr xs =>
              summary_report (Pd.len df) (Pd.count_positive xs)
                (win_rate_of (Pd.count_positive xs) (Pd.len df))
                (Pd.sum np_sum xs)
          end).
Proof.
  intros H.
  unfold display_summary, get_data. unfold bind at 1. rewrite H.
  destruct (Pd.empty df) eqn:E; cbn [negb].
  - reflexivity.
  - destruct (empty_false_len df E) as [Hpos Hnz].
    unfold try_except, lift. unfold bind at 1.
    destruct (pnl_values_of df) as [e|xs].
    + reflexivity.
    + rewrite Hpos. unfold true_divide. rewrite Hnz.
      unfold bind, print, summary_report, win_rate_of. cbn [app]. reflexivity.
Qed.

(** The loop over the rows: the table grows by the rows that render, a
    diagnostic is printed for each of the others, and the loop goes on. *)
Lemma rows_loop (rows : list Pd.Row) (table : list table_row) (j : TradingJournal) :
  for_each rows
    (fun table row =>
       try_except
         (cells <- lift (render_row float_repr row) ;;
          ret (table ++ [cells])%list)
         (fun e => print (PrintRowError e) ;; ret table))
    table j
  = (inr (table ++ successes (map (render_row float_repr) rows))%list, j,
     map PrintRowError (failures (map (render_row float_repr) rows))).
Proof.
  revert table. induction rows as [|row rows IH]; intros table.
  - simpl. unfold ret. rewrite app_nil_r. reflexivity.
  - cbn [for_each map]. unfold bind at 1.
    unfold try_except, lift. unfold bind at 1.
    destruct (render_row float_repr row) as [e|cells].
    + cbn. rewrite IH. reflexivity.
    + cbn. rewrite IH. rewrite <- app_assoc. reflexivity.
Qed.

Lemma display_trades_unset (j : TradingJournal) :
  data j = None ->
  display_trades float_repr np_sum j
  = (inl (AttributeError "'TradingJournal' object has no attribute 'data'"),
     j, []).
Proof.
  intros H. unfold display_trades, get_data. unfold bind at 1.
  rewrite H. reflexivity.
Qed.

Lemma display_trades_run (j : TradingJournal) (df : Pd.DataFrame) :
  data j = Some df ->
  display_trades float_repr np_sum j
  = (inr tt, j,
     if Pd.empty df then [PrintNoData]
     else
       (map PrintRowError
            (failures (map (render_row float_repr) (Pd.iterrows df)))
        ++ [ClearScreen; PrintBanner;
            PrintTable (successes (map (render_row float_repr) (Pd.iterrows df)))]
        ++ snd (display_summary np_sum j))%list).
Proof.
  intros H.
  unfold display_trades, get_data. unfold bind at 1. rewrite H.
  destruct (Pd.empty df) eqn:E.
  - reflexivity.
  - unfold bind at 1. rewrite rows_loop. cbn [app].
    unfold bind, print.
    rewrite (display_summary_run j df H). rewrite E.
    reflexivity.
Qed.

End DisplayFacts.

(** * The claims about the statistics *)

(** C9: the statistics are a function of the journal, and neither display
    changes the journal.  Whatever the state of [self], [display_summary]
    and [display_trades] hand it back as it was, frame included, and a
    second call, made after the first, returns and prints what the first
    did. *)
Theorem displays_leave_the_log
    (float_repr : float -> string) (np_sum : list float -> float)
    (j : TradingJournal) :
  snd (fst (display_summary np_sum j)) = j
  /\ display_summary np_sum (snd (fst (display_summary np_sum j)))
     = display_summary np_sum j
  /\ snd (fst (display_trades float_repr np_sum j)) = j
  /\ display_trades float_repr np_sum (snd (fst (display_trades float_repr np_sum j)))
     = display_trades float_repr np_sum j.
Proof.
  assert (Hs : snd (fst (display_summary np_sum j)) = j).
  { destruct (data j) as [df|] eqn:D.
    - rewrite (display_summary_run np_sum j df D). reflexivity.
    - rewrite (display_summary_unset np_sum j D). reflexivity. }
  assert (Ht : snd (fst (display_trades float_repr np_sum j)) = j).
  { destruct (data j) as [df|] eqn:D.
    - rewrite (display_trades_run float_repr np_sum j df D). reflexivity.
    - rewrite (display_trades_unset float_repr np_sum j D). reflexivity. }
  repeat split; try assumption.
  - rewrite Hs. reflexivity.
  - rewrite Ht. reflexivity.
Qed.

(** C4: the win rate is [profitable / total * 100] and is computed only
    under the test [total_trades > 0].  For an empty frame
    [display_summary] computes and prints nothing; whatever the journal,
    it neither raises nor reports a division by zero; and a win rate that
    is printed is the quotient of the profitable count by the length of a
    frame that has rows, times 100. *)
Theorem win_rate_guarded (np_sum : list float -> float) (j : TradingJournal) :
  (forall df, data j = Some df -> Pd.empty df = true ->
              display_summary np_sum j = (inr tt, j, []))
  /\ fst (fst (display_summary np_sum j)) <> inl ZeroDivisionError
  /\ ~ In (PrintStatsError ZeroDivisionError) (snd (display_summary np_sum j))
  /\ (forall st rate,
         In (PrintWinRate st rate) (snd (display_summary np_sum j)) ->
         exists df profitable,
           data j = Some df /\ 0 < Pd.len df
           /\ In (PrintTotalTrades (Pd.len df)) (snd (display_summary np_sum j))
           /\ In (PrintProfitableTrades profitable)
                 (snd (display_summary np_sum j))
           /\ rate = win_rate_of profitable (Pd.len df)).
Proof.
  destruct (data j) as [df|] eqn:D.
  - rewrite (display_summary_run np_sum j df D). cbn [fst snd].
    split; [|split; [|split]].
    + intros df' Hdf He. injection Hdf as <-. rewrite He. reflexivity.
    + discriminate.
    + destruct (Pd.empty df); [intros []|].
      destruct (pnl_values_of df) as [e|xs] eqn:P.
      * intros [H|[]]. injection H as ->.
        apply pnl_values_of_error in P.
        destruct P as [P|[P|P]]; discriminate P.
      * unfold summary_report. simpl.
        intros H; repeat destruct H as [H|H]; try discriminate H; contradiction.
    + intros st rate Hin.
      destruct (Pd.empty df) eqn:E; [contradiction|].
      destruct (pnl_values_of df) as [e|xs] eqn:P.
      * destruct Hin as [H|[]]. discriminate H.
      * exists df, (Pd.count_positive xs).
        destruct (empty_false_len df E) as [Hpos _]. apply Z.ltb_lt in Hpos.
        split; [reflexivity|]. split; [exact Hpos|].
        unfold summary_report in *. simpl in Hin |- *.
        split; [tauto|]. split; [tauto|].
        repeat destruct Hin as [Hin|Hin]; try discriminate Hin; try contradiction.
        injection Hin as _ <-. reflexivity.
  - rewrite (display_summary_unset np_sum j D). cbn [fst snd].
    split; [|split; [|split]].
    + intros df' Hdf. discriminate Hdf.
    + discriminate.
    + intros [].
    + intros st rate [].
Qed.

Lemma win_rate_guarded_witness :
  display_summary Sample.np_sum
    {| file_path := "missing.csv"; data := Some Pd.empty_frame |}
  = (inr tt, {| file_path := "missing.csv"; data := Some Pd.empty_frame |}, [])
  /\ exists df profitable,
       data (Sample.journal "trading_journal.csv") = Some df /\ 0 < Pd.len df
       /\ In (PrintTotalTrades (Pd.len df))
             (snd (display_summary Sample.np_sum
                     (Sample.journal "trading_journal.csv")))
       /\ In (PrintProfitableTrades profitable)
             (snd (display_summary Sample.np_sum
                     (Sample.journal "trading_journal.csv")))
       /\ S754_finite false 4691249611844266 (-47)
          = win_rate_of profitable (Pd.len df).
Proof.
  split.
  - apply (proj1 (win_rate_guarded Sample.np_sum
                    {| file_path := "missing.csv"; data := Some Pd.empty_frame |})
             Pd.empty_frame); reflexivity.
  - apply (proj2 (proj2 (proj2 (win_rate_guarded Sample.np_sum
                                  (Sample.journal "trading_journal.csv"))))
             loss).
    vm_compute. tauto.
Defined.

(** * Facts about the rows *)


Lemma row_at_getitem (df : Pd.DataFrame) (i : nat) (label : string) :
  Pd.row_getitem (Pd.row_at df i) label
  = match Pd.lookup label (Pd.columns df) with
    | Some s => inr (nth i (Pd.values s) (VFloat Float64.nan))
    | None => inl (KeyError label)
    end.
Proof.
  unfold Pd.row_getitem, Pd.row_at.
  rewrite (lookup_map (fun s => nth i (Pd.values s) (VFloat Float64.nan))).
  destruct (Pd.lookup label (Pd.columns df)); reflexivity.
Qed.

Lemma iterrows_nth (df : Pd.DataFrame) (i : nat) :
  (i < Pd.index_size df)%nat ->
  nth_error (Pd.iterrows df) i = Some (Pd.row_at df i).
Proof.
  intros H. unfold Pd.iterrows.
  rewrite nth_error_map, nth_error_seq.
  apply Nat.ltb_lt in H. rewrite H. reflexivity.
Qed.

Lemma iterrows_length (df : Pd.DataFrame) :
  List.length (Pd.iterrows df) = Pd.index_size df.
Proof. unfold Pd.iterrows. rewrite length_map, length_seq. reflexivity. Qed.


Lemma column_size (df : Pd.DataFrame) (label : string) (col : Pd.Series) :
  Pd.well_formed df ->
  Pd.lookup label (Pd.columns df) = Some col ->
  Pd.size col = Pd.index_size df.
Proof.
  unfold Pd.well_formed. intros Hwf Hcol.
  rewrite Forall_forall in Hwf.
  apply (Hwf (label, col)). apply lookup_In. exact Hcol.
Qed.








(** * The claims about the classification *)

Lemma leb_zero_false (x : float) :
  Float64.leb Float64.zero x = false
  <-> Float64.ltb x Float64.zero = true \/ Float64.is_nan x = true.
Proof.
  destruct x as [s|s| |s m e]; try destruct s; cbn; intuition congruence.
Qed.

Lemma render_row_style (float_repr : float -> string) (row : Pd.Row) (cells : table_row) :
  render_row float_repr row = inr cells ->
  exists pnl x,
    Pd.row_getitem row "PnL" = inr pnl
    /\ parse_pnl float_repr pnl = inr x
    /\ cell_pnl cells = pnl_text float_repr pnl
    /\ cell_pnl_style cells = pnl_style_of x.
Proof.
  unfold render_row. intros H.
  destruct (Pd.row_getitem row "PnL") as [e|pnl]; cbn [rbind] in H;
    [discriminate H|].
  destruct (pnl_value_of (pnl_text float_repr pnl)) as [e|x] eqn:Hx;
    cbn [rbind] in H; [discriminate H|].
  repeat match type of H with
         | rbind ?c _ = inr _ =>
             destruct c; cbn [rbind] in H; [discriminate H|]
         end.
  injection H as <-. exists pnl, x. auto.
Qed.

(** C5, as stated, fails: a row that is printed as unfavorable need not
    have a PnL below zero.  A blank PnL cell is read as NaN; its text is
    [nan], which [float] accepts; [nan >= 0] is false, so the row is
    styled as a loss, and NaN is not below zero. *)
Lemma unfavorable_row_not_negative :
  ~ (forall (float_repr : float -> string) (row : Pd.Row) (pnl : pyval)
            (x : float) (cells : table_row),
        Pd.row_getitem row "PnL" = inr pnl ->
        parse_pnl float_repr pnl = inr x ->
        render_row float_repr row = inr cells ->
        (non_negative x -> cell_pnl_style cells = profit)
        /\ (cell_pnl_style cells = loss -> negative x)).
Proof.
  intros H.
  destruct (Sample.journal "blank_pnl.csv") as [path [df|]] eqn:J;
    [|vm_compute in J; discriminate J].
  destruct (render_row Sample.float_repr (Pd.row_at df 1)) as [e|cells] eqn:R;
    [vm_compute in J; injection J as _ <-; vm_compute in R; discriminate R|].
  specialize (H Sample.float_repr (Pd.row_at df 1) (VFloat Float64.nan)
                Float64.nan cells).
  vm_compute in J. injection J as _ <-.
  destruct (H eq_refl eq_refl R) as [_ Hloss].
  vm_compute in R. injection R as <-.
  specialize (Hloss eq_refl). discriminate Hloss.
Qed.

(** C5, amended: the thresholds include zero everywhere.  A row that
    renders is styled as a profit exactly when its PnL is at least zero,
    and as a loss exactly when its PnL is below zero or is NaN (a missing
    value, or the text [nan]); the win rate is styled as a profit exactly
    when it is at least 50 and as a loss otherwise; the total PnL is
    styled as a profit exactly when it is at least zero and as a loss
    otherwise; and a PnL of zero is styled as a profit although it is not
    counted as profitable. *)
Theorem inclusive_zero_thresholds
    (float_repr : float -> string) (np_sum : list float -> float) :
  (forall row cells,
      render_row float_repr row = inr cells ->
      exists pnl x,
        Pd.row_getitem row "PnL" = inr pnl
        /\ parse_pnl float_repr pnl = inr x
        /\ (cell_pnl_style cells = profit <-> non_negative x)
        /\ (cell_pnl_style cells = loss
            <-> negative x \/ Float64.is_nan x = true))
  /\ (forall j st rate,
         In (PrintWinRate st rate) (snd (display_summary np_sum j)) ->
         (st = profit <-> Float64.leb (Float64.of_Z 50) rate = true)
         /\ (st = loss <-> Float64.leb (Float64.of_Z 50) rate = false))
  /\ (forall j st total,
         In (PrintTotalPnl st total) (snd (display_summary np_sum j)) ->
         (st = profit <-> non_negative total)
         /\ (st = loss <-> ~ non_negative total))
  /\ (pnl_style_of Float64.zero = profit
      /\ Pd.count_positive [Float64.zero] = 0).
Proof.
  assert (Hreport : forall j ev,
             In ev (snd (display_summary np_sum j)) ->
             (forall st rate, ev = PrintWinRate st rate ->
                st = if Float64.leb (Float64.of_Z 50) rate then profit else loss)
             /\ (forall st total, ev = PrintTotalPnl st total ->
                   st = if Float64.leb Float64.zero total then profit else loss)).
  { intros j ev Hin.
    destruct (data j) as [df|] eqn:D.
    - rewrite (display_summary_run np_sum j df D) in Hin. cbn [snd] in Hin.
      destruct (Pd.empty df); [contradiction|].
      destruct (pnl_values_of df) as [e|xs].
      + destruct Hin as [<-|[]]. split; intros; discriminate.
      + unfold summary_report in Hin. simpl in Hin.
        repeat destruct Hin as [<-|Hin]; try contradiction;
          split; intros st v Hev; try discriminate Hev;
          injection Hev as <- <-; reflexivity.
    - rewrite (display_summary_unset np_sum j D) in Hin. contradiction. }
  split; [|split; [|split]].
  - intros row cells H.
    destruct (render_row_style float_repr row cells H)
      as (pnl & x & Hp & Hx & _ & Hs).
    exists pnl, x. split; [exact Hp|]. split; [exact Hx|].
    rewrite Hs. unfold pnl_style_of, non_negative, negative.
    rewrite <- leb_zero_false.
    destruct (Float64.leb Float64.zero x); split; split;
      intros; congruence.
  - intros j st rate Hin.
    destruct (Hreport j _ Hin) as [Hw _]. rewrite (Hw st rate eq_refl).
    destruct (Float64.leb (Float64.of_Z 50) rate); split; split;
      intros; congruence.
  - intros j st total Hin.
    destruct (Hreport j _ Hin) as [_ Ht]. rewrite (Ht st total eq_refl).
    unfold non_negative.
    destruct (Float64.leb Float64.zero total); split; split;
      intros; congruence.
  - split; reflexivity.
Qed.

Lemma inclusive_zero_thresholds_witness :
  exists pnl x,
    Pd.row_getitem Sample.blank_row "PnL" = inr pnl
    /\ parse_pnl Sample.float_repr pnl = inr x
    /\ (loss = profit <-> non_negative x)
    /\ (loss = loss <-> negative x \/ Float64.is_nan x = true).
Proof.
  apply (proj1 (inclusive_zero_thresholds Sample.float_repr Sample.np_sum)
           Sample.blank_row
           {| cell_date := "2024-01-02";
              cell_session := "New York";
              cell_quantity := "2";
              cell_risk_reward := "1:3";
              cell_pnl_style := loss;
              cell_pnl := "nan";
              cell_change := "<float>%";
              cell_comments := "nan" |}).
  vm_compute. reflexivity.
Defined.

(** * The column of plain numbers *)

(** A PnL column that is not a column of objects has no [.str]: the
    statistics fail, whatever its values are. *)
Lemma typed_column_fails_statistics
    (np_sum : list float -> float) (j : TradingJournal)
    (df : Pd.DataFrame) (col : Pd.Series) :
  data j = Some df ->
  Pd.empty df = false ->
  Pd.lookup "PnL" (Pd.columns df) = Some col ->
  (forall l, col <> Pd.ObjectSeries l) ->
  display_summary np_sum j = (inr tt, j, [PrintStatsError Pd.str_accessor_error]).
Proof.
  intros Hdata Hne Hcol Htyped.
  rewrite (display_summary_run np_sum j df Hdata), Hne.
  rewrite (pnl_values_of_other df col Hcol); [reflexivity|].
  destruct col; try exact I. elim (Htyped l). reflexivity.
Qed.

(** C10: there is a file whose PnL cells are plain numbers, read as a
    column of integers, such that once loaded every PnL cell reads as a
    number, every row is rendered into the table and no row diagnostic is
    printed, and yet the statistics fail with the one diagnostic of the
    [.str] accessor, which works on texts only. *)
Theorem plain_numbers_break_statistics :
  exists (w : Pd.World) (conv : pyval -> option timestamp) (path : string)
         (df : Pd.DataFrame) (numbers : list Z),
    init w conv path = (inr tt, {| file_path := path; data := Some df |}, [])
    /\ Pd.lookup "PnL" (Pd.columns df) = Some (Pd.Int64Series numbers)
    /\ forall (float_repr : float -> string) (np_sum : list float -> float),
         Forall (fun z => exists x, parse_pnl float_repr (VInt z) = inr x) numbers
         /\ exists table,
              display_trades float_repr np_sum
                {| file_path := path; data := Some df |}
              = (inr tt, {| file_path := path; data := Some df |},
                 [ClearScreen; PrintBanner; PrintTable table;
                  PrintStatsError Pd.str_accessor_error])
              /\ List.length table = Pd.index_size df
              /\ map cell_pnl table = map PyStr.of_Z numbers.
Proof.
  exists Sample.world, Sample.convert_datetime, "plain_pnl.csv".
  eexists. exists [100; -50; 0].
  split; [vm_compute; reflexivity|].
  split; [reflexivity|].
  intros float_repr np_sum. split.
  - repeat constructor; eexists; vm_compute; reflexivity.
  - eexists. split; [vm_compute; reflexivity|].
    split; reflexivity.
Qed.

(** * The claim about the reading of a PnL *)



(** * Runs of the sample journal *)

(** The statistics of a column of texts and missing values, in general:
    a missing value counts in the total, is not profitable, and adds
    nothing to the total PnL. *)
Lemma summary_of_text_column
    (np_sum : list float -> float) (j : TradingJournal) (df : Pd.DataFrame)
    (cells : list pyval) (xs : list float) :
  data j = Some df ->
  Pd.empty df = false ->
  Pd.lookup "PnL" (Pd.columns df) = Some (Pd.ObjectSeries cells) ->
  Pd.infers_text cells = true ->
  rmap pnl_of_cell cells = inr xs ->
  display_summary np_sum j
  = (inr tt, j,
     summary_report (Pd.len df) (Pd.count_positive xs)
       (win_rate_of (Pd.count_positive xs) (Pd.len df))
       (Pd.sum np_sum xs)).
Proof.
  intros Hdata Hne Hcol Htext Hxs.
  rewrite (display_summary_run np_sum j df Hdata), Hne.
  rewrite (pnl_values_of_object df cells Hcol Htext), Hxs. reflexivity.
Qed.

(** The program on the scenario of the specification. *)
Example main_scenario :
  exists journal row1 row2 row3,
    main Sample.world Sample.convert_datetime Sample.float_repr Sample.np_sum ""
    = (inr tt, journal,
       [ ClearScreen; PrintBanner; PrintTable [row1; row2; row3];
         PrintSummaryHeader; PrintTotalTrades 3; PrintProfitableTrades 1;
         PrintLossMakingTrades 2;
         PrintWinRate loss (win_rate_of 1 3);
         PrintTotalPnl profit (Float64.of_Z 50) ])
    /\ map cell_pnl [row1; row2; row3] = ["$100"; "-$50"; "$0"]
    /\ map cell_pnl_style [row1; row2; row3] = [profit; loss; profit]
    /\ map cell_date [row1; row2; row3]
       = ["2024-01-01"; "2024-01-02"; "2024-01-03"].
Proof.
  do 4 eexists. split; [vm_compute; reflexivity|].
  repeat split.
Qed.

(** A blank PnL cell: the row is printed, as [nan] and as a loss, and the
    statistics go through, the cell counting for nothing in the total PnL. *)
Example blank_pnl_run :
  exists row1 row2 row3,
    display_trades Sample.float_repr Sample.np_sum (Sample.journal "blank_pnl.csv")
    = (inr tt, Sample.journal "blank_pnl.csv",
       [ ClearScreen; PrintBanner; PrintTable [row1; row2; row3];
         PrintSummaryHeader; PrintTotalTrades 3; PrintProfitableTrades 1;
         PrintLossMakingTrades 2;
         PrintWinRate loss (win_rate_of 1 3);
         PrintTotalPnl profit (Float64.of_Z 50) ])
    /\ cell_pnl row2 = "nan" /\ cell_pnl_style row2 = loss.
Proof.
  do 3 eexists. split; [vm_compute; reflexivity|].
  split; reflexivity.
Qed.

(** A path that names no file and has no supported extension. *)
Example missing_txt_run :
  Pd.file_exists Sample.world "missing.txt" = false
  /\ init Sample.world Sample.convert_datetime "missing.txt"
     = (inr tt, {| file_path := "missing.txt"; data := Some Pd.empty_frame |},
        [PrintErrorLoadingFile (ValueError unsupported_format)]).
Proof. split; reflexivity. Qed.

(** * Beyond the claims *)

(** * Further facts about loading *)





Lemma load_data_outcome (w : Pd.World) (conv : pyval -> option timestamp)
    (j : TradingJournal) :
  load_data w conv j
  = match read_outcome w (file_path j) with
    | inl e =>
        (inr tt, {| file_path := file_path j; data := Some Pd.empty_frame |},
         [match e with
          | FileNotFoundError => PrintFileNotFound (file_path j)
          | _ => PrintErrorLoadingFile e
          end])
    | inr df =>
        match Pd.lookup "date" (Pd.columns df) with
        | Some col =>
            match rmap (Pd.datetime_of_value conv) (Pd.values col) with
            | inr dates =>
                (inr tt,
                 {| file_path := file_path j;
                    data := Some (Pd.setitem df "date" (Pd.DatetimeSeries dates)) |},
                 [])
            | inl e =>
                (inr tt,
                 {| file_path := file_path j; data := Some Pd.empty_frame |},
                 [PrintErrorLoadingFile Pd.not_a_datetime])
            end
        | None => (inr tt, {| file_path := file_path j; data := Some df |}, [])
        end
    end.
Proof.
  rewrite load_data_run, load_body_run. fold (read_outcome w (file_path j)).
  destruct (read_outcome w (file_path j)) as [e|df]; [reflexivity|].
  rewrite convert_dates_run.
  destruct (Pd.lookup "date" (Pd.columns df)) as [col|]; [|reflexivity].
  destruct (rmap _ (Pd.values col)) as [e|dates] eqn:R; [|reflexivity].
  destruct (rmap_total (Pd.datetime_of_value conv) (Pd.values col))
    as [[bs R']|(v & e' & Hin & Hv)]; [congruence|].
  assert (e = Pd.not_a_datetime) as ->.
  { rewrite (rmap_raises _ _ v Pd.not_a_datetime) in R.
    - congruence.
    - exact Hin.
    - rewrite Hv. f_equal. eapply datetime_of_value_error; eassumption.
    - intros a' e2 _ H2. eapply datetime_of_value_error; eassumption. }
  reflexivity.
Qed.



(** X2: when the reader returns a frame without a [date] column, loading
    stores that very frame and prints nothing: no conversion is tried. *)
Theorem load_without_dates
    (w : Pd.World) (conv : pyval -> option timestamp) (path : string)
    (df : Pd.DataFrame) :
  read_outcome w path = inr df ->
  Pd.lookup "date" (Pd.columns df) = None ->
  init w conv path = (inr tt, {| file_path := path; data := Some df |}, []).
Proof.
  intros Hread Hcol. unfold init. rewrite load_data_outcome. cbn [file_path].
  rewrite Hread, Hcol. reflexivity.
Qed.





(** X5: whenever loading prints a diagnostic, it is the only one and the
    frame left is empty, so that [display_trades] then prints the notice
    that there is no data and nothing else: no table and no statistics. *)
Theorem failed_load_shows_no_data
    (w : Pd.World) (conv : pyval -> option timestamp)
    (float_repr : float -> string) (np_sum : list float -> float)
    (path : string) :
  snd (init w conv path) <> [] ->
  exists diagnostic,
    init w conv path
    = (inr tt, {| file_path := path; data := Some Pd.empty_frame |}, [diagnostic])
    /\ display_trades float_repr np_sum (snd (fst (init w conv path)))
       = (inr tt, snd (fst (init w conv path)), [PrintNoData]).
Proof.
  unfold init. rewrite load_data_outcome. cbn [file_path].
  destruct (read_outcome w path) as [e|df].
  - intros _. eexists. split; reflexivity.
  - destruct (Pd.lookup "date" (Pd.columns df)) as [col|].
    + destruct (rmap _ (Pd.values col)).
      * intros _. eexists. split; reflexivity.
      * intros H. elim H. reflexivity.
    + intros H. elim H. reflexivity.
Qed.

Lemma failed_load_shows_no_data_witness :
  exists diagnostic,
    init Sample.world Sample.convert_datetime "bad_date.CSV"
    = (inr tt, {| file_path := "bad_date.CSV"; data := Some Pd.empty_frame |},
       [diagnostic])
    /\ display_trades Sample.float_repr Sample.np_sum
         (snd (fst (init Sample.world Sample.convert_datetime "bad_date.CSV")))
       = (inr tt, snd (fst (init Sample.world Sample.convert_datetime "bad_date.CSV")),
          [PrintNoData]).
Proof.
  apply (failed_load_shows_no_data Sample.world Sample.convert_datetime
           Sample.float_repr Sample.np_sum "bad_date.CSV").
  vm_compute. discriminate.
Defined.

Lemma load_without_dates_witness :
  init Cases.world Sample.convert_datetime "no_date.csv"
  = (inr tt, {| file_path := "no_date.csv"; data := Some Cases.no_date |}, []).
Proof.
  apply (load_without_dates Cases.world Sample.convert_datetime "no_date.csv"
           Cases.no_date); reflexivity.
Defined.

(** * Further facts about the table *)

Lemma all_rows_fail {A : Type} (f : Pd.Row -> result A) (rows : list Pd.Row) :
  (forall row, In row rows -> exists e, f row = inl e) ->
  successes (map f rows) = []
  /\ List.length (failures (map f rows)) = List.length rows.
Proof.
  induction rows as [|row rows IH]; intros H; [split; reflexivity|].
  destruct (H row (or_introl eq_refl)) as [e He].
  destruct IH as [IH1 IH2]; [intros r Hr; apply H; right; exact Hr|].
  simpl. rewrite He. simpl. split; [exact IH1 | rewrite IH2; reflexivity].
Qed.

Lemma all_rows_fail_with {A : Type} (f : Pd.Row -> result A) (rows : list Pd.Row) (e : exn) :
  (forall row, In row rows -> f row = inl e) ->
  failures (map f rows) = repeat e (List.length rows).
Proof.
  induction rows as [|row rows IH]; intros H; [reflexivity|].
  simpl. rewrite (H row (or_introl eq_refl)). simpl. f_equal.
  apply IH. intros r Hr. apply H. right. exact Hr.
Qed.

Lemma iterrows_In (df : Pd.DataFrame) (row : Pd.Row) :
  In row (Pd.iterrows df) -> exists i, row = Pd.row_at df i.
Proof.
  unfold Pd.iterrows. intros H. apply in_map_iff in H.
  destruct H as (i & <- & _). exists i. reflexivity.
Qed.

Lemma row_missing_label (df : Pd.DataFrame) (label : string) (row : Pd.Row) :
  Pd.lookup label (Pd.columns df) = None ->
  In row (Pd.iterrows df) ->
  Pd.row_getitem row label = inl (KeyError label).
Proof.
  intros Hcol Hin. destruct (iterrows_In df row Hin) as [i ->].
  rewrite row_at_getitem, Hcol. reflexivity.
Qed.





(** X7: on a frame without a [PnL] column every row is skipped with
    [KeyError('PnL')], the table is printed empty, and the statistics
    fail with the same [KeyError]. *)
Theorem no_pnl_column
    (float_repr : float -> string) (np_sum : list float -> float)
    (j : TradingJournal) (df : Pd.DataFrame) :
  data j = Some df ->
  Pd.empty df = false ->
  Pd.lookup "PnL" (Pd.columns df) = None ->
  display_trades float_repr np_sum j
  = (inr tt, j,
     (repeat (PrintRowError (KeyError "PnL")) (Pd.index_size df)
      ++ [ClearScreen; PrintBanner; PrintTable [];
          PrintStatsError (KeyError "PnL")])%list).
Proof.
  intros Hdata Hne Hcol.
  assert (Hrows : forall row, In row (Pd.iterrows df) ->
                              render_row float_repr row = inl (KeyError "PnL")).
  { intros row Hin. unfold render_row.
    rewrite (row_missing_label df "PnL" row Hcol Hin). reflexivity. }
  rewrite (display_trades_run float_repr np_sum j df Hdata), Hne.
  rewrite (display_summary_run np_sum j df Hdata), Hne. cbn [snd].
  rewrite (all_rows_fail_with _ _ _ Hrows), iterrows_length.
  destruct (all_rows_fail (render_row float_repr) (Pd.iterrows df)) as [-> _].
  { intros row Hin. eexists. apply Hrows. exact Hin. }
  unfold pnl_values_of, Pd.getitem. rewrite Hcol. cbn [rbind].
  rewrite map_repeat. reflexivity.
Qed.

Lemma no_pnl_column_witness :
  display_trades Sample.float_repr Sample.np_sum (Cases.journal "no_pnl.csv")
  = (inr tt, Cases.journal "no_pnl.csv",
     [PrintRowError (KeyError "PnL"); PrintRowError (KeyError "PnL");
      PrintRowError (KeyError "PnL");
      ClearScreen; PrintBanner; PrintTable []; PrintStatsError (KeyError "PnL")]).
Proof.
  apply (no_pnl_column Sample.float_repr Sample.np_sum
           (Cases.journal "no_pnl.csv") Cases.no_pnl); reflexivity.
Defined.






(** * Further facts about the statistics *)

Lemma pnl_values_of_length (df : Pd.DataFrame) (xs : list float) :
  pnl_values_of df = inr xs ->
  exists cells,
    Pd.lookup "PnL" (Pd.columns df) = Some (Pd.ObjectSeries cells)
    /\ Pd.infers_text cells = true
    /\ rmap pnl_of_cell cells = inr xs.
Proof.
  intros H.
  destruct (Pd.lookup "PnL" (Pd.columns df)) as [col|] eqn:Hcol.
  - destruct col as [l|l|l|l|cells];
      try (rewrite (pnl_values_of_other df _ Hcol I) in H; discriminate H).
    destruct (Pd.infers_text cells) eqn:Ht.
    + exists cells. rewrite (pnl_values_of_object df cells Hcol Ht) in H. auto.
    + rewrite (pnl_values_of_other df _ Hcol Ht) in H. discriminate H.
  - unfold pnl_values_of, Pd.getitem in H. rewrite Hcol in H. discriminate H.
Qed.

Lemma count_positive_bounds (xs : list float) :
  0 <= Pd.count_positive xs <= Z.of_nat (List.length xs).
Proof.
  unfold Pd.count_positive.
  pose proof (filter_length_le (fun x => Float64.ltb Float64.zero x) xs). lia.
Qed.

(** X12: on a frame whose columns all have the length of the index, the
    profitable count and the loss-making count that are printed both lie
    between zero and the total. *)
Theorem counts_within_total
    (np_sum : list float -> float) (j : TradingJournal) (df : Pd.DataFrame) :
  data j = Some df ->
  Pd.well_formed df ->
  (forall n, In (PrintProfitableTrades n) (snd (display_summary np_sum j)) ->
             0 <= n <= Pd.len df)
  /\ (forall n, In (PrintLossMakingTrades n) (snd (display_summary np_sum j)) ->
                0 <= n <= Pd.len df).
Proof.
  intros Hdata Hwf.
  rewrite (display_summary_run np_sum j df Hdata). cbn [snd].
  destruct (Pd.empty df); [split; intros n []|].
  destruct (pnl_values_of df) as [e|xs] eqn:Hv.
  { split; intros n [H|[]]; discriminate H. }
  destruct (pnl_values_of_length df xs Hv) as (cells & Hcol & _ & Hxs).
  assert (Hlen : Z.of_nat (List.length xs) = Pd.len df).
  { unfold Pd.len. f_equal. rewrite (rmap_length _ _ _ Hxs).
    rewrite <- (column_size df "PnL" _ Hwf Hcol). reflexivity. }
  pose proof (count_positive_bounds xs) as Hb. rewrite Hlen in Hb.
  unfold summary_report. split; intros n Hin; simpl in Hin;
    repeat destruct Hin as [Hin|Hin]; try discriminate Hin; try contradiction;
    injection Hin as <-; lia.
Qed.

Lemma counts_within_total_witness :
  0 <= 2 <= Pd.len Sample.csv_scenario.
Proof.
  apply (proj2 (counts_within_total Sample.np_sum
                  (Sample.journal "trading_journal.csv") _ eq_refl
                  ltac:(repeat constructor)) 2).
  vm_compute. tauto.
Defined.

(** X13: the statistics read the [PnL] column and the number of rows,
    and nothing else: two frames with the same number of rows and the same
    [PnL] column give the same statistics, whatever their other columns
    and dates are. *)
Theorem statistics_read_one_column
    (np_sum : list float -> float) (j j' : TradingJournal)
    (df df' : Pd.DataFrame) (col : Pd.Series) :
  data j = Some df ->
  data j' = Some df' ->
  Pd.index_size df = Pd.index_size df' ->
  Pd.lookup "PnL" (Pd.columns df) = Some col ->
  Pd.lookup "PnL" (Pd.columns df') = Some col ->
  snd (display_summary np_sum j) = snd (display_summary np_sum j').
Proof.
  intros Hd Hd' Hsize Hcol Hcol'.
  rewrite (display_summary_run np_sum j df Hd),
          (display_summary_run np_sum j' df' Hd'). cbn [snd].
  assert (He : Pd.empty df = Pd.empty df').
  { unfold Pd.empty. rewrite Hsize.
    destruct (Pd.columns df); [discriminate Hcol|].
    destruct (Pd.columns df'); [discriminate Hcol'|]. reflexivity. }
  assert (Hv : pnl_values_of df = pnl_values_of df').
  { unfold pnl_values_of, Pd.getitem. rewrite Hcol, Hcol'. reflexivity. }
  unfold Pd.len. rewrite He, Hv, Hsize. reflexivity.
Qed.

Lemma statistics_read_one_column_witness :
  snd (display_summary Sample.np_sum (Sample.journal "trading_journal.csv"))
  = snd (display_summary Sample.np_sum
           {| file_path := "raw"; data := Some Sample.csv_bad_date |}).
Proof.
  eapply (statistics_read_one_column Sample.np_sum
            (Sample.journal "trading_journal.csv")
            {| file_path := "raw"; data := Some Sample.csv_bad_date |});
    reflexivity.
Defined.

(** * Further facts about the reading of a PnL *)

Lemma remove_char_app (c : ascii) (a b : string) :
  PyStr.remove_char c (a ++ b) = PyStr.remove_char c a ++ PyStr.remove_char c b.
Proof.
  induction a as [|x a IH]; simpl; [reflexivity|].
  destruct (Ascii.eqb x c); simpl; rewrite IH; reflexivity.
Qed.

(** X10: a dollar sign or a comma changes nothing to the reading of a
    PnL, wherever it stands in the text. *)
Theorem currency_signs_anywhere
    (float_repr : float -> string) (a b : string) (c : ascii) :
  c = "$"%char \/ c = ","%char ->
  parse_pnl float_repr (VStr (a ++ String c b))
  = parse_pnl float_repr (VStr (a ++ b)).
Proof.
  intros Hc. rewrite !parse_pnl_text. unfold pnl_of_cell. f_equal.
  rewrite !remove_char_app.
  destruct Hc as [-> | ->]; simpl; rewrite ?remove_char_app; reflexivity.
Qed.

Lemma currency_signs_anywhere_witness :
  parse_pnl Sample.float_repr (VStr "-5$0") = parse_pnl Sample.float_repr (VStr "-50").
Proof.
  apply (currency_signs_anywhere Sample.float_repr "-5" "0" "$").
  left. reflexivity.
Defined.

(** X11: on a PnL column that holds texts only, the column as a whole
    reads as the rows do one by one: the values of the statistics are the
    numbers the rows read, and the statistics have their values exactly
    when every row's PnL reads as a number. *)
Theorem text_column_reads_as_the_rows
    (float_repr : float -> string) (df : Pd.DataFrame) (cells : list pyval) :
  Pd.lookup "PnL" (Pd.columns df) = Some (Pd.ObjectSeries cells) ->
  Forall (fun v => exists t, v = VStr t) cells ->
  pnl_values_of df = rmap (parse_pnl float_repr) cells
  /\ ((exists xs, pnl_values_of df = inr xs)
      <-> Forall (fun v => exists x, parse_pnl float_repr v = inr x) cells).
Proof.
  intros Hcol Htext.
  assert (Hinf : Pd.infers_text cells = true).
  { destruct Htext as [|v l (t & ->) _]; [reflexivity|].
    apply (infers_text_with_str _ t). left. reflexivity. }
  assert (Heq : pnl_values_of df = rmap (parse_pnl float_repr) cells).
  { rewrite (pnl_values_of_object df cells Hcol Hinf). apply rmap_ext.
    intros v Hin. rewrite Forall_forall in Htext.
    destruct (Htext v Hin) as (t & ->). symmetry. apply parse_pnl_text. }
  split; [exact Heq|]. rewrite Heq. split.
  - intros (xs & Hxs). apply rmap_returns in Hxs.
    clear -Hxs. induction Hxs; constructor; eauto.
  - intros Hall.
    destruct (rmap_total (parse_pnl float_repr) cells)
      as [Hok|(v & e & Hin & Hv)]; [exact Hok|].
    rewrite Forall_forall in Hall. destruct (Hall v Hin) as (x & Hx). congruence.
Qed.

Lemma text_column_reads_as_the_rows_witness :
  pnl_values_of Cases.sheet
  = rmap (parse_pnl Sample.float_repr)
         [VStr "$1,250.00"; VStr "-$40"; VStr " $10 "].
Proof.
  apply (proj1 (text_column_reads_as_the_rows Sample.float_repr Cases.sheet
                  [VStr "$1,250.00"; VStr "-$40"; VStr " $10 "] eq_refl
                  ltac:(repeat constructor; eexists; reflexivity))).
Defined.




Lemma typed_column_fails_statistics_witness :
  display_summary Sample.np_sum (Sample.journal "plain_pnl.csv")
  = (inr tt, Sample.journal "plain_pnl.csv",
     [PrintStatsError Pd.str_accessor_error]).
Proof.
  eapply (typed_column_fails_statistics Sample.np_sum
            (Sample.journal "plain_pnl.csv") _ (Pd.Int64Series [100; -50; 0]));
    try reflexivity.
  intros l. discriminate.
Defined.

(** * Facts about paths *)













(** X17: a row whose date is missing does not render, although loading
    accepts it: in a frame whose [date] column holds timestamps, the row
    of a [NaT] whose PnL reads as a number is skipped with the
    [ValueError] of [strftime]. *)
Theorem missing_date_row_is_skipped
    (float_repr : float -> string) (df : Pd.DataFrame)
    (dates : list (option timestamp)) (col : Pd.Series) (i : nat) (x : float) :
  Pd.lookup "date" (Pd.columns df) = Some (Pd.DatetimeSeries dates) ->
  nth_error dates i = Some None ->
  (i < Pd.index_size df)%nat ->
  Pd.lookup "PnL" (Pd.columns df) = Some col ->
  parse_pnl float_repr (nth i (Pd.values col) (VFloat Float64.nan)) = inr x ->
  nth_error (map (render_row float_repr) (Pd.iterrows df)) i
  = Some (inl (ValueError "NaTType does not support strftime")).
Proof.
  intros Hdate Hnat Hi Hcol Hpnl.
  rewrite nth_error_map, (iterrows_nth df i Hi). cbn [option_map]. f_equal.
  unfold render_row. rewrite !row_at_getitem, Hcol, Hdate. cbn [rbind].
  unfold parse_pnl in Hpnl. rewrite Hpnl. cbn [rbind Pd.values].
  rewrite (nth_error_nth _ _ _ (map_nth_error Pd.box_datetime i dates Hnat)).
  reflexivity.
Qed.

Lemma missing_date_row_is_skipped_witness :
  nth_error (map (render_row Sample.float_repr) (Pd.iterrows Cases.sheet)) 1
  = Some (inl (ValueError "NaTType does not support strftime")).
Proof.
  eapply (missing_date_row_is_skipped Sample.float_repr Cases.sheet _ _ 1%nat);
    try reflexivity.
  repeat constructor.
Defined.
